(** * psbt.demo: the UTXO-funded transaction pipeline of [assignment.js]

    A shallow embedding of [getUTXOs], [getTransactionHex],
    [broadcastTransaction] and [simulatePSBT], and the properties of coin
    selection, change computation, error propagation and the order of the
    network calls.

    Modelling choices.
    - The constants [AMOUNT_TO_SEND] and [FEE] and the array lengths are
      integers ([Z]); JavaScript's [+], [-], [>=] and [<] are exact on
      integers up to 2^53, and every amount of satoshis that exists is far
      below that bound. The [value] and [vout] of a listed UTXO are whatever
      number the service sent ([Number.t]): an integer or not.
    - A thrown JavaScript [Error] is its message; [async]/[await] code runs as
      one sequential computation that either completes or throws.
    - The mempool.space service is a [World] of responses; every request
      made and every console line printed is recorded in a trace.
    - bitcoinjs-lib, ecpair and tiny-secp256k1 are outside the repository:
      key handling, signing, finalizing and serialization are the operations of
      an arbitrary [BitcoinLib], and so is the library's refusal of an input
      or an output ([addInput] and [addOutput] can throw). A [Psbt] holds
      the inputs and outputs that the library accepted, in order. *)

From Stdlib Require Import String Ascii List ZArith Lia Bool DecimalString.
Import ListNotations.

Local Open Scope string_scope.
Local Open Scope Z_scope.

(** ** JavaScript values *)

(** [new Error(message)] *)
Record Error := new_Error { message : string }.

(** How a computation ends: [return a] or [throw e]. *)
Inductive Completion (A : Type) : Type :=
| Normal (a : A)
| Throw (e : Error).
Arguments Normal {A} a.
Arguments Throw {A} e.

(** A byte sequence ([Buffer] / [Uint8Array]). *)
Definition Buffer := list Byte.byte.

(** The line feed of the source's ["\n"]. *)
Definition nl : string := String (ascii_of_nat 10) EmptyString.

(** A number inside a template literal: its decimal digits (integers of
    magnitude below 10^21 print this way). *)
Definition Number_toString (n : Z) : string := NilZero.string_of_int (Z.to_int n).

(** A JavaScript number as it arrives in the service's JSON: an integer, or a
    number that is not an integer, given by the integer just below it and by
    the text a template literal prints for it. *)
Module Number.
Inductive t :=
| whole (n : Z)
| fractional (below : Z) (shown : string).

(** The greatest integer that is not above the number. *)
Definition floor (x : t) : Z :=
  match x with
  | whole n => n
  | fractional below _ => below
  end.

(** [x >= k] for an integer [k]: a number that is not an integer lies
    strictly between [below] and [below + 1], so it is at least [k] exactly
    when [below] is. *)
Definition geb (x : t) (k : Z) : bool := (floor x >=? k)%Z.

(** The number inside a template literal. *)
Definition toString (x : t) : string :=
  match x with
  | whole n => Number_toString n
  | fractional _ shown => shown
  end.
End Number.

(** [BigInt(x)]: the integer itself, or a [RangeError] for a number that is
    not an integer. *)
Definition BigInt (x : Number.t) : Completion Z :=
  match x with
  | Number.whole n => Normal n
  | Number.fractional _ shown =>
      Throw (new_Error ("The number " ++ shown ++ " cannot be converted to a "
                          ++ "BigInt because it is not an integer"))
  end.

(** ** Data *)

Inductive Network := testnet | mainnet.

(** The [status] object of a mempool.space UTXO; the program copies it and
    never looks inside. *)
Record Status := { confirmed : bool }.

Module Utxo.
Record t := make {
  txid : string;
  vout : Number.t;
  value : Number.t;
  status : Status
}.
End Utxo.
Abbreviation UTXO := Utxo.t.

Module WitnessUtxo.
Record t := make { script : Buffer; value : Z }.
End WitnessUtxo.

(** An input of a [Psbt]: the object literal given to [addInput], and the two
    fields bitcoinjs-lib fills in when it signs and finalizes. *)
Module Input.
Record t := make {
  hash : string;
  index : Number.t;
  witnessUtxo : WitnessUtxo.t;
  partialSig : list (Buffer * Buffer);
  finalScriptWitness : option Buffer
}.
End Input.

Module Output.
Record t := make { address : string; value : Z }.
End Output.

Module Psbt.
Record t := make {
  network : Network;
  inputs : list Input.t;
  outputs : list Output.t
}.

(** [new bitcoin.Psbt({ network })] *)
Definition new (net : Network) : t :=
  {| network := net; inputs := []; outputs := [] |}.

(** The transaction with one more input, and with one more output: what
    [addInput] and [addOutput] leave behind when the library accepts their
    argument (see [Psbt_addInput] and [Psbt_addOutput] below). *)
Definition with_input (psbt : t) (i : Input.t) : t :=
  {| network := network psbt;
     inputs := (inputs psbt ++ [i])%list;
     outputs := outputs psbt |}.

Definition with_output (psbt : t) (o : Output.t) : t :=
  {| network := network psbt;
     inputs := inputs psbt;
     outputs := (outputs psbt ++ [o])%list |}.
End Psbt.

(** The result of [bitcoin.payments.p2wpkh({ pubkey, network })]. *)
Module Payment.
Record t := make { address : string; output : Buffer }.
End Payment.

(** ** The libraries the program calls *)

Class BitcoinLib := {
  KeyPair : Type;
  Transaction : Type;
  (** [ECPair.fromWIF(wif, network)] *)
  ECPair_fromWIF : string -> Network -> Completion KeyPair;
  (** [keyPair.publicKey] *)
  publicKey : KeyPair -> Buffer;
  (** [bitcoin.payments.p2wpkh({ pubkey, network })] *)
  payments_p2wpkh : Buffer -> Network -> Payment.t;
  (** [psbt.addInput({ hash, index, witnessUtxo })]: the error it throws when
      it refuses the input, if it does *)
  addInput_refuses :
    Psbt.t -> string -> Number.t -> WitnessUtxo.t -> option Error;
  (** [psbt.addOutput({ address, value })]: the error it throws when it
      refuses the output, if it does *)
  addOutput_refuses : Psbt.t -> Output.t -> option Error;
  (** [psbt.signInput(index, keyPair)] *)
  Psbt_signInput : Psbt.t -> Z -> KeyPair -> Completion Psbt.t;
  (** [psbt.finalizeAllInputs()] *)
  Psbt_finalizeAllInputs : Psbt.t -> Completion Psbt.t;
  (** [psbt.extractTransaction()] *)
  Psbt_extractTransaction : Psbt.t -> Completion Transaction;
  (** [tx.toHex()] *)
  Transaction_toHex : Transaction -> string
}.

(** ** Constants *)

Record Wallet := { privateKey : string; wallet_address : string }.

Class Constants := {
  network : Network;
  WALLET : Wallet;
  AMOUNT_TO_SEND : Z;
  DESTINATION_ADDRESS : string;
  FEE : Z;
  MEMPOOL_API_BASE : string
}.

(** The values written in [assignment.js]. *)
Definition assignment_constants : Constants := {|
  network := testnet;
  WALLET := {| privateKey := "cTGAe5L4f2yUUFf1dfc4cbu8dWSmwDv2Yy6Hys4LvqMwmXqEAw9T";
               wallet_address := "tb1qt5j5snh3nt5d6udhekupyrp6rqdnpwmyedjy9s" |};
  AMOUNT_TO_SEND := 1000;
  DESTINATION_ADDRESS := "tb1qlj64u6fqutr0xue85kl55fx0gt4m4urun25p7q";
  FEE := 200;
  MEMPOOL_API_BASE := "https://mempool.space/testnet/api"
|}.

(** ** The outside world and the trace of a run *)

(** What [await axios.get(..)] / [await axios.post(..)] settles to. *)
Inductive AxiosResult (A : Type) : Type :=
| Resolved (data : A)
| Rejected (error : Error).
Arguments Resolved {A} data.
Arguments Rejected {A} error.

(** The responses of the indexing service, by request. *)
Record World := {
  get_utxo : string -> AxiosResult (list UTXO);
  get_hex : string -> AxiosResult string;
  post_tx : string -> string -> AxiosResult string
}.

Inductive Event :=
| console_log (line : string)
| console_error (line : string)
| console_error_with (line : string) (error : Error)
| axios_get (url : string)
| axios_post (url body : string).

(** A computation reads the world, appends to the trace, and completes. *)
Definition IO (A : Type) : Type := World -> list Event * Completion A.

Definition ret {A} (a : A) : IO A := fun _ => ([], Normal a).

Definition throw {A} (e : Error) : IO A := fun _ => ([], Throw e).

Definition bind {A B} (m : IO A) (f : A -> IO B) : IO B :=
  fun w =>
    match m w with
    | (t1, Normal a) => let (t2, r) := f a w in ((t1 ++ t2)%list, r)
    | (t1, Throw e) => (t1, Throw e)
    end.

(** [try { body } catch (error) { handler }] *)
Definition try_catch {A} (body : IO A) (handler : Error -> IO A) : IO A :=
  fun w =>
    match body w with
    | (t1, Normal a) => (t1, Normal a)
    | (t1, Throw e) => let (t2, r) := handler e w in ((t1 ++ t2)%list, r)
    end.

(** A library call, which may throw. *)
Definition call {A} (c : Completion A) : IO A := fun _ => ([], c).

Definition emit (e : Event) : IO unit := fun _ => ([e], Normal tt).

Definition settle {A} (r : AxiosResult A) : Completion A :=
  match r with
  | Resolved data => Normal data
  | Rejected error => Throw error
  end.

Declare Scope io_scope.
Delimit Scope io_scope with io.
Notation "x <- m ;; k" := (bind m (fun x => k))
  (at level 61, m at next level, right associativity) : io_scope.
Notation "m ;; k" := (bind m (fun _ => k))
  (at level 61, right associativity) : io_scope.
Local Open Scope io_scope.

Definition trace {A} (r : list Event * Completion A) : list Event := fst r.
Definition result {A} (r : list Event * Completion A) : Completion A := snd r.

Definition is_network (e : Event) : bool :=
  match e with
  | axios_get _ | axios_post _ _ => true
  | _ => false
  end.

(** The requests of a trace, in the order they were made. *)
Definition network_calls (t : list Event) : list Event := filter is_network t.

Section Program.
Context {constants : Constants} {lib : BitcoinLib}.

(** *** [getUTXOs] *)

Definition utxo_url (address : string) : string :=
  MEMPOOL_API_BASE ++ "/address/" ++ address ++ "/utxo".

Definition getUTXOs (address : string) : IO (list UTXO) :=
  emit (console_log (nl ++ "Fetching UTXOs for address: " ++ address)) ;;
  let url := utxo_url address in
  try_catch
    (data <- (fun w => ([axios_get url], settle (get_utxo w url))) ;;
     emit (console_log ("  - Found " ++ Number_toString (Z.of_nat (length data))
                          ++ " UTXO(s)")) ;;
     (if (Z.of_nat (length data) =? 0)%Z
      then throw (new_Error "No UTXOs found for this address")
      else ret tt) ;;
     let utxos :=
       map (fun utxo => {| Utxo.txid := Utxo.txid utxo;
                           Utxo.vout := Utxo.vout utxo;
                           Utxo.value := Utxo.value utxo;
                           Utxo.status := Utxo.status utxo |}) data in
     ret utxos)
    (fun error => throw (new_Error ("Failed to fetch UTXOs: " ++ message error))).

(** *** [getTransactionHex] *)

Definition hex_url (txid : string) : string :=
  MEMPOOL_API_BASE ++ "/tx/" ++ txid ++ "/hex".

Definition getTransactionHex (txid : string) : IO string :=
  emit (console_log (nl ++ "Fetching transaction hex for: " ++ txid)) ;;
  let url := hex_url txid in
  try_catch
    (data <- (fun w => ([axios_get url], settle (get_hex w url))) ;;
     emit (console_log "  - Successfully fetched hex.") ;;
     ret data)
    (fun error =>
       throw (new_Error ("Failed to fetch transaction hex for UTXO: "
                           ++ message error))).

(** *** [broadcastTransaction] *)

Definition tx_url : string := MEMPOOL_API_BASE ++ "/tx".

Definition broadcastTransaction (txHex : string) : IO string :=
  let url := tx_url in
  try_catch
    (data <- (fun w => ([axios_post url txHex], settle (post_tx w url txHex))) ;;
     ret data)
    (fun error =>
       throw (new_Error ("Failed to broadcast transaction: " ++ message error))).

(** *** Coin selection (lines 116-122 of [simulatePSBT]) *)

Definition insufficient_balance : Error :=
  new_Error ("No UTXO with sufficient balance found. Need at least "
               ++ Number_toString (AMOUNT_TO_SEND + FEE) ++ " satoshis.").

(** [utxos.find(u => u.value >= AMOUNT_TO_SEND + FEE)], then the throw when
    nothing was found. *)
Definition select (utxos : list UTXO) : Completion UTXO :=
  match find (fun u => Number.geb (Utxo.value u) (AMOUNT_TO_SEND + FEE)) utxos with
  | Some utxo => Normal utxo
  | None => Throw insufficient_balance
  end.

(** *** Transaction construction (lines 136-175 of [simulatePSBT]) *)

Definition input_not_enough : Error :=
  new_Error "Input amount is not enough to cover the transaction and fee.".

(** [psbt.addInput(..)] and [psbt.addOutput(..)]: the library throws when it
    refuses the argument, and holds it otherwise. *)
Definition Psbt_addInput (psbt : Psbt.t) (h : string) (i : Number.t)
    (w : WitnessUtxo.t) : Completion Psbt.t :=
  match addInput_refuses psbt h i w with
  | Some error => Throw error
  | None => Normal (Psbt.with_input psbt (Input.make h i w [] None))
  end.

Definition Psbt_addOutput (psbt : Psbt.t) (o : Output.t) : Completion Psbt.t :=
  match addOutput_refuses psbt o with
  | Some error => Throw error
  | None => Normal (Psbt.with_output psbt o)
  end.

(** The argument of [addInput] is evaluated first, [BigInt(utxo.value)]
    included. From there on [utxo.value] is the integer that [BigInt]
    returned, and [utxo.value - AMOUNT_TO_SEND - FEE] is computed on it. *)
Definition build (keyPair : KeyPair) (address : string) (utxo : UTXO)
  : IO Psbt.t :=
  let psbt := Psbt.new network in
  let script := Payment.output (payments_p2wpkh (publicKey keyPair) network) in
  value <- call (BigInt (Utxo.value utxo)) ;;
  psbt <- call (Psbt_addInput psbt (Utxo.txid utxo) (Utxo.vout utxo)
                  {| WitnessUtxo.script := script; WitnessUtxo.value := value |}) ;;
  emit (console_log ("  - Input added: " ++ Utxo.txid utxo ++ ":"
                       ++ Number.toString (Utxo.vout utxo))) ;;
  let change := (value - AMOUNT_TO_SEND - FEE)%Z in
  (if (change <? 0)%Z then throw input_not_enough else ret tt) ;;
  amount <- call (BigInt (Number.whole AMOUNT_TO_SEND)) ;;
  psbt <- call (Psbt_addOutput psbt {| Output.address := DESTINATION_ADDRESS;
                                       Output.value := amount |}) ;;
  emit (console_log ("  - Output added: " ++ Number_toString AMOUNT_TO_SEND
                       ++ " satoshis to " ++ DESTINATION_ADDRESS)) ;;
  if (change >? 0)%Z
  then
    paid <- call (BigInt (Number.whole change)) ;;
    psbt <- call (Psbt_addOutput psbt {| Output.address := address;
                                         Output.value := paid |}) ;;
    emit (console_log ("  - Change output added: " ++ Number_toString change
                         ++ " satoshis to " ++ address)) ;;
    ret psbt
  else ret psbt.

(** *** [simulatePSBT] *)

(** The bindings of the [try] block that later statements read. *)
Record Locals := {
  l_keyPair : KeyPair;
  l_address : string;
  l_utxo : UTXO;
  l_psbt : Psbt.t;
  l_txHex : string;
  l_txid : string
}.

(** The body of the [try] block, lines 101-203. *)
Definition pipeline : IO Locals :=
  keyPair <- call (ECPair_fromWIF (privateKey WALLET) network) ;;
  let address := Payment.address (payments_p2wpkh (publicKey keyPair) network) in
  emit (console_log (nl ++ " Wallet Details:")) ;;
  emit (console_log ("  Address (p2wpkh): " ++ address)) ;;
  utxos <- getUTXOs address ;;
  utxo <- call (select utxos) ;;
  emit (console_log (nl ++ "Selected UTXO:")) ;;
  emit (console_log ("  - TXID: " ++ Utxo.txid utxo)) ;;
  emit (console_log ("  - VOUT: " ++ Number.toString (Utxo.vout utxo))) ;;
  emit (console_log ("  - Value: " ++ Number.toString (Utxo.value utxo)
                       ++ " satoshis")) ;;
  utxoTxHex <- getTransactionHex (Utxo.txid utxo) ;;
  emit (console_log ("utxoTxHex " ++ utxoTxHex)) ;;
  emit (console_log (nl ++ "Constructing PSBT...")) ;;
  psbt <- build keyPair address utxo ;;
  emit (console_log (nl ++ "Signing transaction...")) ;;
  psbt <- call (Psbt_signInput psbt 0 keyPair) ;;
  emit (console_log "  - Input 0 signed.") ;;
  psbt <- call (Psbt_finalizeAllInputs psbt) ;;
  emit (console_log "  - All inputs finalized.") ;;
  tx <- call (Psbt_extractTransaction psbt) ;;
  let txHex := Transaction_toHex tx in
  emit (console_log (nl ++ "Final Raw Transaction Hex:")) ;;
  emit (console_log txHex) ;;
  emit (console_log (nl ++ "Broadcasting transaction to the Bitcoin Testnet...")) ;;
  txid <- broadcastTransaction txHex ;;
  emit (console_log "  - Transaction broadcast successful!") ;;
  emit (console_log (nl ++ "Transaction Details:")) ;;
  emit (console_log ("  - Transaction ID (TXID): " ++ txid)) ;;
  emit (console_log ("  - View on Block Explorer: https://mempool.space/testnet/tx/"
                       ++ txid)) ;;
  ret {| l_keyPair := keyPair; l_address := address; l_utxo := utxo;
         l_psbt := psbt; l_txHex := txHex; l_txid := txid |}.

(** Every error that reaches the [catch] is an [Error] of the program, of
    the library or of [BigInt]; the errors of axios are rewrapped before they
    get there. None has a [response] property, so the handler prints the
    message. *)
Definition simulatePSBT : IO unit :=
  emit (console_log "Starting PSBT creation and broadcast simulation...") ;;
  try_catch
    (pipeline ;; ret tt)
    (fun error =>
       emit (console_error_with (nl ++ "An error occurred during the simulation:")
               error) ;;
       emit (console_error ("  - Message: " ++ message error))).

End Program.

(** ** A stand-in library and sample worlds, for running the program *)

(** The checks of the stand-in library on what it is handed: a transaction id
    of 64 characters, an output index that fits 32 bits, values that fit 63
    bits. *)
Definition refuses_input (h : string) (i : Number.t) (w : WitnessUtxo.t)
  : option Error :=
  if negb (Nat.eqb (String.length h) 64)
  then Some (new_Error "Invalid transaction id")
  else
    match i with
    | Number.whole n =>
        if negb ((0 <=? n) && (n <? 2 ^ 32))%Z
        then Some (new_Error "Invalid output index")
        else if negb ((0 <=? WitnessUtxo.value w) && (WitnessUtxo.value w <? 2 ^ 63))%Z
             then Some (new_Error "Invalid value")
             else None
    | Number.fractional _ _ => Some (new_Error "Invalid output index")
    end.

Definition refuses_output (o : Output.t) : option Error :=
  if negb ((0 <=? Output.value o) && (Output.value o <? 2 ^ 63))%Z
  then Some (new_Error "Invalid value")
  else None.

(** A library that accepts every key, signs by recording one partial signature
    on the chosen input and finalizes by moving it into the witness. *)
Definition sign_at (i : Z) (ins : list Input.t) : list Input.t :=
  map (fun p : Z * Input.t =>
         let (j, inp) := p in
         if (j =? i)%Z
         then Input.make (Input.hash inp) (Input.index inp) (Input.witnessUtxo inp)
                [([Byte.x02], [Byte.x30])] (Input.finalScriptWitness inp)
         else inp)
      (combine (map Z.of_nat (seq 0 (length ins))) ins).

Definition finalize_input (inp : Input.t) : option Input.t :=
  match Input.partialSig inp with
  | [(pubkey, signature)] =>
      Some (Input.make (Input.hash inp) (Input.index inp) (Input.witnessUtxo inp)
              [] (Some (signature ++ pubkey)%list))
  | _ => None
  end.

Fixpoint finalize_inputs (ins : list Input.t) : option (list Input.t) :=
  match ins with
  | [] => Some []
  | inp :: rest =>
      match finalize_input inp, finalize_inputs rest with
      | Some inp', Some rest' => Some (inp' :: rest')
      | _, _ => None
      end
  end.

Definition sample_lib : BitcoinLib := {|
  KeyPair := string;
  Transaction := Psbt.t;
  ECPair_fromWIF := fun wif _ => Normal wif;
  publicKey := fun _ => [Byte.x02];
  payments_p2wpkh := fun pubkey _ =>
    {| Payment.address := "tb1qt5j5snh3nt5d6udhekupyrp6rqdnpwmyedjy9s";
       Payment.output := (Byte.x00 :: Byte.x14 :: pubkey)%list |};
  addInput_refuses := fun _ => refuses_input;
  addOutput_refuses := fun _ => refuses_output;
  Psbt_signInput := fun psbt i _ =>
    Normal (Psbt.make (Psbt.network psbt) (sign_at i (Psbt.inputs psbt))
              (Psbt.outputs psbt));
  Psbt_finalizeAllInputs := fun psbt =>
    match finalize_inputs (Psbt.inputs psbt) with
    | Some ins => Normal (Psbt.make (Psbt.network psbt) ins (Psbt.outputs psbt))
    | None => Throw (new_Error "Can not finalize input")
    end;
  Psbt_extractTransaction := fun psbt => Normal psbt;
  Transaction_toHex := fun _ => "02000000000101"
|}.

(** The same library, except that finalizing leaves an input that already has
    its witness as it is. *)
Definition finalize_again (inp : Input.t) : option Input.t :=
  match Input.finalScriptWitness inp with
  | Some _ => Some inp
  | None => finalize_input inp
  end.

Fixpoint finalize_inputs_again (ins : list Input.t) : option (list Input.t) :=
  match ins with
  | [] => Some []
  | inp :: rest =>
      match finalize_again inp, finalize_inputs_again rest with
      | Some inp', Some rest' => Some (inp' :: rest')
      | _, _ => None
      end
  end.

Definition lenient_lib : BitcoinLib := {|
  KeyPair := string;
  Transaction := Psbt.t;
  ECPair_fromWIF := fun wif _ => Normal wif;
  publicKey := fun _ => [Byte.x02];
  payments_p2wpkh := @payments_p2wpkh sample_lib;
  addInput_refuses := fun _ => refuses_input;
  addOutput_refuses := fun _ => refuses_output;
  Psbt_signInput := @Psbt_signInput sample_lib;
  Psbt_finalizeAllInputs := fun psbt =>
    match finalize_inputs_again (Psbt.inputs psbt) with
    | Some ins => Normal (Psbt.make (Psbt.network psbt) ins (Psbt.outputs psbt))
    | None => Throw (new_Error "Can not finalize input")
    end;
  Psbt_extractTransaction := fun psbt => Normal psbt;
  Transaction_toHex := fun _ => "02000000000101"
|}.

Definition sample_txid : string :=
  "e3b0c44298fc1c149afbf4c8996fb92427ae41e4649b934ca495991b7852b855".

(** A confirmed output of [v] satoshis, at index 1 of [sample_txid]. *)
Definition sample_utxo (v : Z) : UTXO :=
  {| Utxo.txid := sample_txid; Utxo.vout := Number.whole 1;
     Utxo.value := Number.whole v; Utxo.status := {| confirmed := true |} |}.



(** A service that lists the given UTXOs, serves a raw transaction and accepts
    the broadcast. *)
Definition serving (utxos : list UTXO) : World := {|
  get_utxo := fun _ => Resolved utxos;
  get_hex := fun _ => Resolved "0200";
  post_tx := fun _ _ => Resolved "77aa"
|}.

(** A service that cannot be reached: every request is rejected with
    [reason]. *)
Definition unreachable (reason : string) : World := {|
  get_utxo := fun _ => Rejected (new_Error reason);
  get_hex := fun _ => Rejected (new_Error reason);
  post_tx := fun _ _ => Rejected (new_Error reason)
|}.

(** The world [w] with another answer to the raw-transaction request. *)
Definition with_hex (w : World) (answer : string -> AxiosResult string) : World := {|
  get_utxo := get_utxo w;
  get_hex := answer;
  post_tx := post_tx w
|}.

(** The error kinds the specification names; the program itself throws plain
    [Error]s, told apart by their messages only. *)
Inductive ErrorKind :=
| NetworkError
| NoFundsError
| InsufficientFundsError
| FinalizationError
| BroadcastError.

(** The kind of a failure of [getUTXOs], read off its message: the program has
    no error classes, and the text is what tells its failures apart. *)
Definition fetch_failure_kind (e : Error) : ErrorKind :=
  if String.eqb (message e) "Failed to fetch UTXOs: No UTXOs found for this address"
  then NoFundsError
  else NetworkError.

(** ** Observations on a transaction under construction *)

Definition sum_outputs (psbt : Psbt.t) : Z :=
  fold_right Z.add 0 (map Output.value (Psbt.outputs psbt)).

Definition sum_inputs (psbt : Psbt.t) : Z :=
  fold_right Z.add 0
    (map (fun i => WitnessUtxo.value (Input.witnessUtxo i)) (Psbt.inputs psbt)).

Section Expected.
Context {constants : Constants} {lib : BitcoinLib}.

(** The single input [build] adds for [utxo]. *)
Definition spending (keyPair : KeyPair) (utxo : UTXO) : Input.t :=
  {| Input.hash := Utxo.txid utxo;
     Input.index := Utxo.vout utxo;
     Input.witnessUtxo :=
       {| WitnessUtxo.script :=
            Payment.output (payments_p2wpkh (publicKey keyPair) network);
          WitnessUtxo.value := Number.floor (Utxo.value utxo) |};
     Input.partialSig := [];
     Input.finalScriptWitness := None |}.

Definition destination_output : Output.t :=
  {| Output.address := DESTINATION_ADDRESS; Output.value := AMOUNT_TO_SEND |}.

(** The change on [utxo], and the output that pays it to [address]. *)
Definition change_of (utxo : UTXO) : Z :=
  Number.floor (Utxo.value utxo) - AMOUNT_TO_SEND - FEE.

Definition change_output (address : string) (utxo : UTXO) : Output.t :=
  {| Output.address := address; Output.value := change_of utxo |}.

(** The transaction once the input is held, and once the destination output
    is held too. *)
Definition funded (keyPair : KeyPair) (utxo : UTXO) : Psbt.t :=
  Psbt.with_input (Psbt.new network) (spending keyPair utxo).

Definition paying (keyPair : KeyPair) (utxo : UTXO) : Psbt.t :=
  Psbt.with_output (funded keyPair utxo) destination_output.

(** Does the library refuse the input that spends [utxo]? *)
Definition input_refusal (keyPair : KeyPair) (utxo : UTXO) : option Error :=
  addInput_refuses (Psbt.new network) (Utxo.txid utxo) (Utxo.vout utxo)
    (Input.witnessUtxo (spending keyPair utxo)).

(** What [getUTXOs] prints and requests before the response arrives, and
    the line it prints about a response of [n] entries. *)
Definition fetching (address : string) : list Event :=
  [console_log (nl ++ "Fetching UTXOs for address: " ++ address);
   axios_get (utxo_url address)].

Definition found (n : nat) : Event :=
  console_log ("  - Found " ++ Number_toString (Z.of_nat n) ++ " UTXO(s)").

(** The three requests of a complete run, in order. *)
Definition all_calls (address txid txHex : string) : list Event :=
  [axios_get (utxo_url address); axios_get (hex_url txid); axios_post tx_url txHex].

(** The requests made by the [try] block and its completion, read off stage
    by stage; [pipeline_outline] below proves that this is what [pipeline]
    does. *)
Definition outline (w : World) : list Event * Completion Locals :=
  match ECPair_fromWIF (privateKey WALLET) network with
  | Throw e => ([], Throw e)
  | Normal keyPair =>
    let address := Payment.address (payments_p2wpkh (publicKey keyPair) network) in
    match result (getUTXOs address w) with
    | Throw e => ([axios_get (utxo_url address)], Throw e)
    | Normal utxos =>
      match select utxos with
      | Throw e => ([axios_get (utxo_url address)], Throw e)
      | Normal utxo =>
        let sourced :=
          [axios_get (utxo_url address); axios_get (hex_url (Utxo.txid utxo))] in
        match result (getTransactionHex (Utxo.txid utxo) w) with
        | Throw e => (sourced, Throw e)
        | Normal _ =>
          match result (build keyPair address utxo w) with
          | Throw e => (sourced, Throw e)
          | Normal psbt =>
            match Psbt_signInput psbt 0 keyPair with
            | Throw e => (sourced, Throw e)
            | Normal signed =>
              match Psbt_finalizeAllInputs signed with
              | Throw e => (sourced, Throw e)
              | Normal final =>
                match Psbt_extractTransaction final with
                | Throw e => (sourced, Throw e)
                | Normal tx =>
                  let txHex := Transaction_toHex tx in
                  (all_calls address (Utxo.txid utxo) txHex,
                   match result (broadcastTransaction txHex w) with
                   | Throw e => Throw e
                   | Normal txid =>
                       Normal {| l_keyPair := keyPair; l_address := address;
                                 l_utxo := utxo; l_psbt := final;
                                 l_txHex := txHex; l_txid := txid |}
                   end)
                end
              end
            end
          end
        end
      end
    end
  end.

(** What the [catch] block prints for [error]. *)
Definition report (error : Error) : list Event :=
  [console_error_with (nl ++ "An error occurred during the simulation:") error;
   console_error ("  - Message: " ++ message error)].
End Expected.

(** A library in the place of bitcoinjs-lib whose signing refuses every key. *)
Definition refusing_lib : BitcoinLib := {|
  KeyPair := string;
  Transaction := Psbt.t;
  ECPair_fromWIF := fun wif _ => Normal wif;
  publicKey := fun _ => [Byte.x02];
  payments_p2wpkh := @payments_p2wpkh sample_lib;
  addInput_refuses := fun _ => refuses_input;
  addOutput_refuses := fun _ => refuses_output;
  Psbt_signInput := fun _ _ _ =>
    Throw (new_Error "Can not sign for this input with the key");
  Psbt_finalizeAllInputs := @Psbt_finalizeAllInputs sample_lib;
  Psbt_extractTransaction := fun psbt => Normal psbt;
  Transaction_toHex := fun _ => "02000000000101"
|}.

(** ** Notions used to describe whole runs *)

(** The lines of the [catch] block: [console.error]. *)
Definition is_report (e : Event) : bool :=
  match e with
  | console_error _ | console_error_with _ _ => true
  | _ => false
  end.

(** [part] occurs in [whole] as one uninterrupted stretch. *)
Definition contiguous (part whole : list Event) : Prop :=
  exists pre post, whole = (pre ++ part ++ post)%list.

(** The two lines printed once the key is loaded, and the four printed about
    the selected UTXO. *)
Definition wallet_details (address : string) : list Event :=
  [console_log (nl ++ " Wallet Details:");
   console_log ("  Address (p2wpkh): " ++ address)].

Definition selected_lines (utxo : UTXO) : list Event :=
  [console_log (nl ++ "Selected UTXO:");
   console_log ("  - TXID: " ++ Utxo.txid utxo);
   console_log ("  - VOUT: " ++ Number.toString (Utxo.vout utxo));
   console_log ("  - Value: " ++ Number.toString (Utxo.value utxo) ++ " satoshis")].

(** A UTXO with its status replaced. *)
Definition with_status (s : Status) (u : UTXO) : UTXO :=
  {| Utxo.txid := Utxo.txid u; Utxo.vout := Utxo.vout u;
     Utxo.value := Utxo.value u; Utxo.status := s |}.

(** Runs [build] through every outcome of the conversions, of the library's
    checks and of the two tests on the change. *)
Ltac build_cases :=
  unfold build, bind, call, emit, throw, ret, Psbt_addInput, Psbt_addOutput;
  repeat (cbv beta iota zeta; cbn [BigInt fst snd];
          match goal with
          | |- context [match addInput_refuses ?a ?b ?c ?d with _ => _ end] =>
              destruct (addInput_refuses a b c d)
          | |- context [match addOutput_refuses ?a ?b with _ => _ end] =>
              destruct (addOutput_refuses a b)
          | |- context [BigInt (Utxo.value ?u)] => destruct (Utxo.value u)
          | |- context [if ?c then _ else _] => destruct c
          end).

(** * Properties *)

(** ** Coin selection *)

Lemma find_first {A} (p : A -> bool) (l : list A) (x : A) :
  find p l = Some x <->
  exists before after,
    l = (before ++ x :: after)%list /\
    (forall y, In y before -> p y = false) /\ p x = true.
Proof.
  induction l as [|a l IH]; simpl.
  - split; [discriminate|].
    intros (before & after & E & _). destruct before; discriminate.
  - destruct (p a) eqn:Pa.
    + split.
      * intros [= <-]. exists [], l. repeat split; auto. intros y [].
      * intros (before & after & E & Hb & Px).
        destruct before as [|b before]; simpl in E; injection E as <- E.
        -- reflexivity.
        -- rewrite (Hb a (or_introl eq_refl)) in Pa. discriminate.
    + rewrite IH. split.
      * intros (before & after & -> & Hb & Px).
        exists (a :: before), after. repeat split; auto.
        intros y [<-|Hy]; auto.
      * intros (before & after & E & Hb & Px).
        destruct before as [|b before]; simpl in E; injection E as <- E.
        -- congruence.
        -- exists before, after. repeat split; auto.
           intros y Hy. apply Hb. now right.
Qed.

Lemma find_none_iff {A} (p : A -> bool) (l : list A) :
  find p l = None <-> forall y, In y l -> p y = false.
Proof.
  split.
  - intros H y Hy. exact (find_none p l H y Hy).
  - intros H. destruct (find p l) eqn:F; [|reflexivity].
    apply find_some in F as [Hin Hp]. rewrite (H _ Hin) in Hp. discriminate.
Qed.

Section Selection.
Context {constants : Constants}.

Lemma sufficient_true (u : UTXO) :
  Number.geb (Utxo.value u) (AMOUNT_TO_SEND + FEE) = true <->
  AMOUNT_TO_SEND + FEE <= Number.floor (Utxo.value u).
Proof. unfold Number.geb. rewrite Z.geb_le. reflexivity. Qed.

Lemma sufficient_false (u : UTXO) :
  Number.geb (Utxo.value u) (AMOUNT_TO_SEND + FEE) = false <->
  Number.floor (Utxo.value u) < AMOUNT_TO_SEND + FEE.
Proof.
  rewrite <- not_true_iff_false, sufficient_true. lia.
Qed.

(** C2. [select] returns the first UTXO, in the order of the sequence, whose
    value is at least [AMOUNT_TO_SEND + FEE]; it returns one exactly when some
    UTXO of the sequence has such a value, and throws the
    insufficient-balance error exactly when none has. (A value [v] is at
    least the integer [m] exactly when [m <= floor v], and below it exactly
    when [floor v < m]; on an integer value [floor v] is [v].) *)
Theorem select_first_sufficient (utxos : list UTXO) :
  let m := AMOUNT_TO_SEND + FEE in
  (forall u,
      select utxos = Normal u <->
      exists before after,
        utxos = (before ++ u :: after)%list /\
        (forall x, In x before -> Number.floor (Utxo.value x) < m) /\
        m <= Number.floor (Utxo.value u))
  /\ ((exists u, select utxos = Normal u) <->
      (exists x, In x utxos /\ m <= Number.floor (Utxo.value x)))
  /\ (select utxos = Throw insufficient_balance <->
      (forall x, In x utxos -> Number.floor (Utxo.value x) < m)).
Proof.
  intros m.
  assert (first : forall u,
             select utxos = Normal u <->
             exists before after,
               utxos = (before ++ u :: after)%list /\
               (forall x, In x before -> Number.floor (Utxo.value x) < m) /\
               m <= Number.floor (Utxo.value u)).
  { intros u. unfold select.
    destruct (find _ utxos) as [x|] eqn:F.
    - split.
      + intros [= <-]. apply find_first in F as (b & a & E & Hb & Hx).
        exists b, a. repeat split; auto.
        * intros y Hy. apply sufficient_false. auto.
        * apply sufficient_true. exact Hx.
      + intros (b & a & E & Hb & Hu). f_equal.
        assert (F' : find (fun u0 => Number.geb (Utxo.value u0) (AMOUNT_TO_SEND + FEE))
                       utxos = Some u).
        { apply find_first. exists b, a. repeat split; auto.
          - intros y Hy. apply sufficient_false. auto.
          - apply sufficient_true. exact Hu. }
        congruence.
    - split; [discriminate|].
      intros (b & a & E & Hb & Hu). exfalso.
      rewrite find_none_iff in F.
      assert (Hin : In u utxos) by (rewrite E; apply in_elt).
      apply F in Hin. apply sufficient_false in Hin. unfold m in Hu. lia. }
  split; [exact first|]. split.
  - split.
    + intros [u Hu]. apply first in Hu as (b & a & E & _ & Hm).
      exists u. split; [rewrite E; apply in_elt | exact Hm].
    + intros (x & Hin & Hx). unfold select.
      destruct (find _ utxos) as [u|] eqn:F; [eauto|].
      rewrite find_none_iff in F. apply F, sufficient_false in Hin.
      unfold m in Hx. lia.
  - unfold select. destruct (find _ utxos) as [u|] eqn:F.
    + split; [discriminate|]. intros H. exfalso.
      apply find_some in F as [Hin Hu]. apply sufficient_true in Hu.
      apply H in Hin. unfold m in Hin. lia.
    + split; [|reflexivity]. intros _ x Hin.
      rewrite find_none_iff in F. apply sufficient_false. auto.
Qed.
End Selection.

(** ** Transaction construction *)

Section Construction.
Context {constants : Constants} {lib : BitcoinLib}.

(** What [build] completes with: the failure of [BigInt(utxo.value)], the
    library's refusal of the input, the not-enough error, the library's
    refusal of an output, or the transaction. *)
Lemma build_result (keyPair : KeyPair) (address : string) (utxo : UTXO) (w : World) :
  result (build keyPair address utxo w) =
  match BigInt (Utxo.value utxo) with
  | Throw e => Throw e
  | Normal _ =>
    match input_refusal keyPair utxo with
    | Some e => Throw e
    | None =>
      if (change_of utxo <? 0)%Z then Throw input_not_enough
      else
        match addOutput_refuses (funded keyPair utxo) destination_output with
        | Some e => Throw e
        | None =>
          if (change_of utxo >? 0)%Z
          then
            match addOutput_refuses (paying keyPair utxo)
                    (change_output address utxo) with
            | Some e => Throw e
            | None =>
                Normal (Psbt.with_output (paying keyPair utxo)
                          (change_output address utxo))
            end
          else Normal (paying keyPair utxo)
        end
    end
  end.
Proof.
  unfold build, bind, call, emit, throw, ret, result, Psbt_addInput,
    Psbt_addOutput, input_refusal, change_output, change_of, paying, funded,
    spending, destination_output.
  destruct (Utxo.value utxo) as [v|below shown]; cbn [BigInt Number.floor];
    [|reflexivity].
  cbv beta iota zeta. cbn [WitnessUtxo.script WitnessUtxo.value Input.witnessUtxo].
  destruct (addInput_refuses _ _ _ _); [reflexivity|].
  cbv beta iota zeta. cbn [snd fst BigInt].
  destruct (v - AMOUNT_TO_SEND - FEE <? 0)%Z; [reflexivity|].
  cbv beta iota zeta. cbn [snd fst BigInt]. cbv beta iota zeta.
  destruct (addOutput_refuses (Psbt.with_input _ _) _); [reflexivity|].
  cbv beta iota zeta. cbn [snd fst BigInt].
  destruct (v - AMOUNT_TO_SEND - FEE >? 0)%Z; [|reflexivity].
  cbv beta iota zeta. cbn [snd fst BigInt]. cbv beta iota zeta.
  destruct (addOutput_refuses (Psbt.with_output _ _) _); reflexivity.
Qed.


(** What a completed [build] tells: the value is an integer, the library
    accepted the input and the outputs, the change is not negative, and the
    transaction is the one with that input and those outputs. *)
Lemma build_completed
    (keyPair : KeyPair) (address : string) (utxo : UTXO) (w : World) (psbt : Psbt.t) :
  result (build keyPair address utxo w) = Normal psbt ->
  Utxo.value utxo = Number.whole (Number.floor (Utxo.value utxo)) /\
  input_refusal keyPair utxo = None /\
  0 <= change_of utxo /\
  psbt = {| Psbt.network := network;
            Psbt.inputs := [spending keyPair utxo];
            Psbt.outputs :=
              destination_output ::
              (if (change_of utxo >? 0)%Z then [change_output address utxo]
               else []) |}.
Proof.
  rewrite build_result.
  destruct (Utxo.value utxo) as [v|below shown] eqn:Hv; cbn [BigInt];
    [|discriminate].
  destruct (input_refusal keyPair utxo); [discriminate|].
  destruct (Z.ltb_spec (change_of utxo) 0) as [Hneg|Hpos]; [discriminate|].
  destruct (addOutput_refuses (funded keyPair utxo) destination_output);
    [discriminate|].
  destruct (change_of utxo >? 0)%Z.
  - destruct (addOutput_refuses _ _); [discriminate|].
    intros [= <-]. repeat split; assumption.
  - intros [= <-]. repeat split; assumption.
Qed.

(** C3. A transaction that [build] completes with conserves value: its
    output values plus the constant [FEE] add up to its input values. *)
Theorem build_conserves_value
    (keyPair : KeyPair) (address : string) (utxo : UTXO) (w : World) (psbt : Psbt.t) :
  result (build keyPair address utxo w) = Normal psbt ->
  sum_outputs psbt + FEE = sum_inputs psbt.
Proof.
  intros H. apply build_completed in H as (_ & _ & Hpos & ->).
  unfold sum_outputs, sum_inputs, change_output, change_of in *.
  cbn [Psbt.outputs Psbt.inputs].
  destruct (Z.gtb_spec (Number.floor (Utxo.value utxo) - AMOUNT_TO_SEND - FEE) 0);
    simpl; lia.
Qed.

(** C5. A transaction that [build] completes with has exactly one input; it
    references the selected UTXO's transaction id and output index and
    carries, as [witnessUtxo], the UTXO's value and the pay-to-witness-key
    script of the key pair whose address the UTXOs were fetched for. *)
Theorem build_single_input
    (keyPair : KeyPair) (address : string) (utxo : UTXO) (w : World) (psbt : Psbt.t) :
  result (build keyPair address utxo w) = Normal psbt ->
  exists input,
    Psbt.inputs psbt = [input] /\
    Input.hash input = Utxo.txid utxo /\
    Input.index input = Utxo.vout utxo /\
    Number.whole (WitnessUtxo.value (Input.witnessUtxo input)) = Utxo.value utxo /\
    WitnessUtxo.script (Input.witnessUtxo input) =
      Payment.output (payments_p2wpkh (publicKey keyPair) network).
Proof.
  intros H. apply build_completed in H as (Hv & _ & _ & ->).
  exists (spending keyPair utxo). repeat split. symmetry. exact Hv.
Qed.

End Construction.

(** ** The chain data gateway *)

Lemma copy_fields (data : list UTXO) :
  map (fun utxo => {| Utxo.txid := Utxo.txid utxo;
                      Utxo.vout := Utxo.vout utxo;
                      Utxo.value := Utxo.value utxo;
                      Utxo.status := Utxo.status utxo |}) data = data.
Proof.
  induction data as [|[i o v s] data IH]; simpl; [reflexivity|].
  now rewrite IH.
Qed.

Section Gateway.
Context {constants : Constants}.

Lemma getUTXOs_run (address : string) (w : World) :
  getUTXOs address w =
  match get_utxo w (utxo_url address) with
  | Rejected error =>
      (fetching address,
       Throw (new_Error ("Failed to fetch UTXOs: " ++ message error)))
  | Resolved [] =>
      ((fetching address ++ [found 0])%list,
       Throw (new_Error "Failed to fetch UTXOs: No UTXOs found for this address"))
  | Resolved data =>
      ((fetching address ++ [found (length data)])%list, Normal data)
  end.
Proof.
  unfold getUTXOs, try_catch, bind, emit, throw, ret, settle, fetching, found.
  destruct (get_utxo w (utxo_url address)) as [data|error]; [|reflexivity].
  cbv beta iota zeta. rewrite copy_fields.
  destruct data as [|u data]; reflexivity.
Qed.

Lemma getTransactionHex_run (txid : string) (w : World) :
  getTransactionHex txid w =
  match get_hex w (hex_url txid) with
  | Rejected error =>
      ([console_log (nl ++ "Fetching transaction hex for: " ++ txid);
        axios_get (hex_url txid)],
       Throw (new_Error ("Failed to fetch transaction hex for UTXO: "
                           ++ message error)))
  | Resolved data =>
      ([console_log (nl ++ "Fetching transaction hex for: " ++ txid);
        axios_get (hex_url txid);
        console_log "  - Successfully fetched hex."],
       Normal data)
  end.
Proof.
  unfold getTransactionHex, try_catch, bind, emit, throw, ret, settle.
  destruct (get_hex w (hex_url txid)); reflexivity.
Qed.

Lemma broadcastTransaction_run (txHex : string) (w : World) :
  broadcastTransaction txHex w =
  ([axios_post tx_url txHex],
   match post_tx w tx_url txHex with
   | Rejected error =>
       Throw (new_Error ("Failed to broadcast transaction: " ++ message error))
   | Resolved data => Normal data
   end).
Proof.
  unfold broadcastTransaction, try_catch, bind, throw, ret, settle.
  destruct (post_tx w tx_url txHex); reflexivity.
Qed.
End Gateway.

(** ** Traces *)

Lemma network_calls_app (t1 t2 : list Event) :
  network_calls (t1 ++ t2) = (network_calls t1 ++ network_calls t2)%list.
Proof. apply filter_app. Qed.

Lemma network_calls_nil : network_calls [] = [].
Proof. reflexivity. Qed.

Lemma network_calls_log (line : string) (t : list Event) :
  network_calls (console_log line :: t) = network_calls t.
Proof. reflexivity. Qed.

Lemma network_calls_error (line : string) (t : list Event) :
  network_calls (console_error line :: t) = network_calls t.
Proof. reflexivity. Qed.

Lemma network_calls_error_with (line : string) (e : Error) (t : list Event) :
  network_calls (console_error_with line e :: t) = network_calls t.
Proof. reflexivity. Qed.

Lemma network_calls_get (url : string) (t : list Event) :
  network_calls (axios_get url :: t) = axios_get url :: network_calls t.
Proof. reflexivity. Qed.

Lemma network_calls_post (url body : string) (t : list Event) :
  network_calls (axios_post url body :: t) = axios_post url body :: network_calls t.
Proof. reflexivity. Qed.

Create Rewrite HintDb calls.

#[local] Hint Rewrite network_calls_app network_calls_nil network_calls_log
  network_calls_error network_calls_error_with network_calls_get
  network_calls_post app_nil_r : calls.

Lemma in_network_calls (e : Event) (t : list Event) :
  In e t -> is_network e = true -> In e (network_calls t).
Proof. intros Hin Hn. apply filter_In. split; assumption. Qed.

Section Stages.
Context {constants : Constants} {lib : BitcoinLib}.

Lemma getUTXOs_calls (address : string) (w : World) :
  network_calls (trace (getUTXOs address w)) = [axios_get (utxo_url address)].
Proof.
  rewrite getUTXOs_run.
  destruct (get_utxo w (utxo_url address)) as [[|u data]|error]; reflexivity.
Qed.

Lemma getTransactionHex_calls (txid : string) (w : World) :
  network_calls (trace (getTransactionHex txid w)) = [axios_get (hex_url txid)].
Proof.
  rewrite getTransactionHex_run.
  destruct (get_hex w (hex_url txid)); reflexivity.
Qed.

Lemma build_calls (keyPair : KeyPair) (address : string) (utxo : UTXO) (w : World) :
  network_calls (trace (build keyPair address utxo w)) = [].
Proof. build_cases; reflexivity. Qed.

Lemma build_ignores_world (keyPair : KeyPair) (address : string) (utxo : UTXO)
    (w1 w2 : World) :
  build keyPair address utxo w1 = build keyPair address utxo w2.
Proof. build_cases; reflexivity. Qed.
End Stages.

(** ** The pipeline, stage by stage *)

Section Pipeline.
Context {constants : Constants} {lib : BitcoinLib}.

Lemma pipeline_outline (w : World) :
  (network_calls (trace (pipeline w)), result (pipeline w)) = outline w.
Proof.
  unfold outline, pipeline, bind, call, emit, ret, trace, result.
  cbv beta iota zeta.
  destruct (ECPair_fromWIF (privateKey WALLET) network) as [keyPair|e0];
    [|reflexivity].
  pose proof (getUTXOs_calls
                (Payment.address (payments_p2wpkh (publicKey keyPair) network)) w)
    as C1.
  destruct (getUTXOs _ w) as [t1 [utxos|e1]]; unfold trace in C1;
    cbn [fst snd] in *; [|autorewrite with calls; now rewrite C1].
  destruct (select utxos) as [utxo|e2];
    [|cbn [fst snd app]; autorewrite with calls; now rewrite C1].
  pose proof (getTransactionHex_calls (Utxo.txid utxo) w) as C2.
  destruct (getTransactionHex _ w) as [t2 [hex|e2]]; unfold trace in C2;
    cbn [fst snd] in *;
    [|cbn [app]; autorewrite with calls; now rewrite C1, C2].
  pose proof (build_calls keyPair
                (Payment.address (payments_p2wpkh (publicKey keyPair) network))
                utxo w) as C3.
  destruct (build _ _ _ w) as [t3 [psbt|e3]]; unfold trace in C3;
    cbn [fst snd] in *;
    [|cbn [app]; autorewrite with calls; now rewrite C1, C2, C3].
  destruct (Psbt_signInput psbt 0 keyPair) as [signed|e4];
    [|cbn [fst snd app]; autorewrite with calls; now rewrite C1, C2, C3].
  destruct (Psbt_finalizeAllInputs signed) as [final|e5];
    [|cbn [fst snd app]; autorewrite with calls; now rewrite C1, C2, C3].
  destruct (Psbt_extractTransaction final) as [tx|e6];
    [|cbn [fst snd app]; autorewrite with calls; now rewrite C1, C2, C3].
  rewrite broadcastTransaction_run.
  destruct (post_tx w tx_url (Transaction_toHex tx)) as [txid|e7];
    cbn [fst snd app]; autorewrite with calls; now rewrite C1, C2, C3.
Qed.

Lemma simulatePSBT_run (w : World) :
  simulatePSBT w =
  ((console_log "Starting PSBT creation and broadcast simulation..."
      :: trace (pipeline w)
      ++ match result (pipeline w) with
         | Normal _ => []
         | Throw error => report error
         end)%list,
   Normal tt).
Proof.
  unfold simulatePSBT, try_catch, bind, emit, ret, report, trace, result.
  destruct (pipeline w) as [t [locals|error]]; cbn [fst snd app].
  - now rewrite !app_nil_r.
  - reflexivity.
Qed.

Lemma simulatePSBT_calls (w : World) :
  network_calls (trace (simulatePSBT w)) = fst (outline w).
Proof.
  rewrite simulatePSBT_run, <- pipeline_outline. unfold trace at 1.
  cbn [fst]. autorewrite with calls.
  destruct (result (pipeline w)); unfold report; autorewrite with calls;
    reflexivity.
Qed.

(** C6. The requests of a run are an initial part of: fetch the UTXOs, fetch
    the referenced transaction, broadcast, each made at most once and in
    that order. The broadcast request is made only when every earlier stage
    (key loading, fetch, select, fetch of the referenced transaction, build,
    sign, finalize, extract) has completed, and it carries the extracted
    transaction. A failure at any stage ends the run with the report of that
    failure, and nothing is done after it. *)
Theorem broadcast_only_after_success (w : World) :
  (exists address txid txHex n,
      network_calls (trace (simulatePSBT w)) = firstn n (all_calls address txid txHex))
  /\ (forall url body,
         In (axios_post url body) (trace (simulatePSBT w)) ->
         exists keyPair utxos utxo hex psbt signed final tx,
           let address :=
             Payment.address (payments_p2wpkh (publicKey keyPair) network) in
           ECPair_fromWIF (privateKey WALLET) network = Normal keyPair /\
           result (getUTXOs address w) = Normal utxos /\
           select utxos = Normal utxo /\
           result (getTransactionHex (Utxo.txid utxo) w) = Normal hex /\
           result (build keyPair address utxo w) = Normal psbt /\
           Psbt_signInput psbt 0 keyPair = Normal signed /\
           Psbt_finalizeAllInputs signed = Normal final /\
           Psbt_extractTransaction final = Normal tx /\
           url = tx_url /\ body = Transaction_toHex tx)
  /\ (forall error,
         result (pipeline w) = Throw error ->
         trace (simulatePSBT w) =
         (console_log "Starting PSBT creation and broadcast simulation..."
            :: trace (pipeline w) ++ report error)%list).
Proof.
  split; [|split].
  - rewrite simulatePSBT_calls. unfold outline.
    destruct (ECPair_fromWIF _ _) as [keyPair|e]; [|now exists EmptyString, EmptyString, EmptyString, 0%nat].
    set (address := Payment.address _).
    destruct (result (getUTXOs address w)) as [utxos|e];
      [|now exists address, EmptyString, EmptyString, 1%nat].
    destruct (select utxos) as [utxo|e]; [|now exists address, EmptyString, EmptyString, 1%nat].
    destruct (result (getTransactionHex _ w)) as [hex|e];
      [|now exists address, (Utxo.txid utxo), EmptyString, 2%nat].
    destruct (result (build _ _ _ w)) as [psbt|e];
      [|now exists address, (Utxo.txid utxo), EmptyString, 2%nat].
    destruct (Psbt_signInput _ _ _) as [signed|e];
      [|now exists address, (Utxo.txid utxo), EmptyString, 2%nat].
    destruct (Psbt_finalizeAllInputs _) as [final|e];
      [|now exists address, (Utxo.txid utxo), EmptyString, 2%nat].
    destruct (Psbt_extractTransaction _) as [tx|e];
      [|now exists address, (Utxo.txid utxo), EmptyString, 2%nat].
    now exists address, (Utxo.txid utxo), (Transaction_toHex tx), 3%nat.
  - intros url body Hin.
    apply in_network_calls in Hin; [|reflexivity].
    rewrite simulatePSBT_calls in Hin. unfold outline in Hin.
    destruct (ECPair_fromWIF _ _) as [keyPair|e] eqn:E0; [|destruct Hin].
    set (address := Payment.address _) in *.
    destruct (result (getUTXOs address w)) as [utxos|e] eqn:E1;
      [|now destruct Hin as [|[]]].
    destruct (select utxos) as [utxo|e] eqn:E2; [|now destruct Hin as [|[]]].
    destruct (result (getTransactionHex _ w)) as [hex|e] eqn:E3;
      [|now destruct Hin as [|[|[]]]].
    destruct (result (build _ _ _ w)) as [psbt|e] eqn:E4;
      [|now destruct Hin as [|[|[]]]].
    destruct (Psbt_signInput _ _ _) as [signed|e] eqn:E5;
      [|now destruct Hin as [|[|[]]]].
    destruct (Psbt_finalizeAllInputs _) as [final|e] eqn:E6;
      [|now destruct Hin as [|[|[]]]].
    destruct (Psbt_extractTransaction _) as [tx|e] eqn:E7;
      [|now destruct Hin as [|[|[]]]].
    cbn [fst all_calls] in Hin.
    destruct Hin as [H|[H|[H|[]]]]; try discriminate.
    injection H as <- <-.
    exists keyPair, utxos, utxo, hex, psbt, signed, final, tx.
    cbv zeta. fold address. repeat split; assumption.
  - intros error Herr. rewrite simulatePSBT_run. unfold trace at 1.
    cbn [fst]. now rewrite Herr.
Qed.
End Pipeline.

(** ** The referenced transaction is fetched and not used *)

Section Independence.
Context {constants : Constants} {lib : BitcoinLib}.

Lemma getUTXOs_with_hex (address : string) (w : World)
    (answer : string -> AxiosResult string) :
  getUTXOs address (with_hex w answer) = getUTXOs address w.
Proof. now rewrite !getUTXOs_run. Qed.

Lemma broadcastTransaction_with_hex (txHex : string) (w : World)
    (answer : string -> AxiosResult string) :
  broadcastTransaction txHex (with_hex w answer) = broadcastTransaction txHex w.
Proof. now rewrite !broadcastTransaction_run. Qed.

Lemma outline_with_hex (w : World) (hex1 hex2 : string -> string) :
  outline (with_hex w (fun url => Resolved (hex1 url))) =
  outline (with_hex w (fun url => Resolved (hex2 url))).
Proof.
  unfold outline.
  destruct (ECPair_fromWIF _ _) as [keyPair|e]; [|reflexivity].
  cbv zeta. rewrite !getUTXOs_with_hex.
  destruct (result (getUTXOs _ w)) as [utxos|e]; [|reflexivity].
  destruct (select utxos) as [utxo|e]; [|reflexivity].
  rewrite !getTransactionHex_run. cbn [with_hex get_hex result snd].
  rewrite (build_ignores_world keyPair _ utxo
             (with_hex w (fun url => Resolved (hex1 url)))
             (with_hex w (fun url => Resolved (hex2 url)))).
  destruct (result (build _ _ _ _)) as [psbt|e]; [|reflexivity].
  destruct (Psbt_signInput _ _ _) as [signed|e]; [|reflexivity].
  destruct (Psbt_finalizeAllInputs _) as [final|e]; [|reflexivity].
  destruct (Psbt_extractTransaction _) as [tx|e]; [|reflexivity].
  now rewrite !broadcastTransaction_with_hex.
Qed.

(** C10. Two runs that differ only in the raw transaction hex served for the
    selected UTXO's transaction id build the same transaction, sign and
    finalize it to the same state, extract the same hex, make the same
    requests and end the same way. *)
Theorem raw_transaction_unused (w : World) (hex1 hex2 : string -> string) :
  let w1 := with_hex w (fun url => Resolved (hex1 url)) in
  let w2 := with_hex w (fun url => Resolved (hex2 url)) in
  (forall keyPair address utxo,
      build keyPair address utxo w1 = build keyPair address utxo w2)
  /\ result (pipeline w1) = result (pipeline w2)
  /\ network_calls (trace (simulatePSBT w1)) = network_calls (trace (simulatePSBT w2)).
Proof.
  intros w1 w2. split; [|split].
  - intros. apply build_ignores_world.
  - pose proof (pipeline_outline w1) as H1. pose proof (pipeline_outline w2) as H2.
    unfold w1, w2 in *. rewrite (outline_with_hex w hex1 hex2) in H1.
    rewrite <- H2 in H1. now injection H1.
  - rewrite !simulatePSBT_calls. unfold w1, w2.
    now rewrite (outline_with_hex w hex1 hex2).
Qed.
End Independence.

(** ** Failures of [getUTXOs] *)

Section Failures.
Context {constants : Constants} {lib : BitcoinLib}.

(** C4. [getUTXOs] returns the entries of a non-empty response, each with its
    txid, vout, value and status. A transport failure ends in an error
    whose message is "Failed to fetch UTXOs: " followed by the message of the
    transport error; an empty response ends in the error with the message
    "Failed to fetch UTXOs: No UTXOs found for this address". The two are
    different errors, of different kinds by their text, for every transport
    error that does not itself carry the program's text "No UTXOs found for
    this address". After an empty response the run stops there: one
    request, no transaction under construction. *)
Theorem getUTXOs_outcomes (address : string) (w : World) :
  (forall data,
      get_utxo w (utxo_url address) = Resolved data ->
      data <> [] ->
      result (getUTXOs address w) = Normal data)
  /\ (forall error,
         get_utxo w (utxo_url address) = Rejected error ->
         result (getUTXOs address w) =
         Throw (new_Error ("Failed to fetch UTXOs: " ++ message error)))
  /\ (get_utxo w (utxo_url address) = Resolved [] ->
      result (getUTXOs address w) =
      Throw (new_Error ("Failed to fetch UTXOs: "
                          ++ "No UTXOs found for this address")))
  /\ (forall keyPair,
         ECPair_fromWIF (privateKey WALLET) network = Normal keyPair ->
         let own := Payment.address (payments_p2wpkh (publicKey keyPair) network) in
         get_utxo w (utxo_url own) = Resolved [] ->
         pipeline w =
         ((console_log (nl ++ " Wallet Details:")
             :: console_log ("  Address (p2wpkh): " ++ own)
             :: fetching own ++ [found 0])%list,
          Throw (new_Error "Failed to fetch UTXOs: No UTXOs found for this address")))
  /\ (forall empty failed error e1 e2,
         get_utxo empty (utxo_url address) = Resolved [] ->
         get_utxo failed (utxo_url address) = Rejected error ->
         message error <> "No UTXOs found for this address" ->
         result (getUTXOs address empty) = Throw e1 ->
         result (getUTXOs address failed) = Throw e2 ->
         fetch_failure_kind e1 = NoFundsError /\
         fetch_failure_kind e2 = NetworkError /\
         e1 <> e2).
Proof.
  split; [|split; [|split; [|split]]].
  - intros data E Hne. rewrite getUTXOs_run, E.
    destruct data; [contradiction | reflexivity].
  - intros error E. now rewrite getUTXOs_run, E.
  - intros E. now rewrite getUTXOs_run, E.
  - intros keyPair E0 own E1.
    unfold pipeline, bind, call, emit. rewrite E0. cbv beta iota zeta.
    fold own. rewrite getUTXOs_run, E1. reflexivity.
  - intros empty failed error e1 e2 E1 E2 Hmsg.
    rewrite !getUTXOs_run, E1, E2. unfold result. cbn [snd].
    intros [= <-] [= <-].
    assert (Hkind : fetch_failure_kind
                      (new_Error ("Failed to fetch UTXOs: " ++ message error))
                    = NetworkError).
    { unfold fetch_failure_kind. cbn.
      destruct (String.eqb_spec (message error) "No UTXOs found for this address");
        [contradiction | reflexivity]. }
    split; [reflexivity|]. split; [exact Hkind|].
    intros Heq.
    assert (K : fetch_failure_kind
                  (new_Error "Failed to fetch UTXOs: No UTXOs found for this address")
                = NetworkError).
    { rewrite Heq. exact Hkind. }
    discriminate K.
Qed.
End Failures.

(** ** The program on the constants of [assignment.js] *)

(** UTXO of 5000, 1000 to send, fee 200: two outputs, the change is 3800. *)
Example scenario_change_3800 :
  result (build (constants := assignment_constants) (lib := sample_lib)
            "key" "tb1qt5j5snh3nt5d6udhekupyrp6rqdnpwmyedjy9s"
            (sample_utxo 5000) (serving [])) =
  Normal {| Psbt.network := testnet;
            Psbt.inputs :=
              [Input.make sample_txid (Number.whole 1)
                 {| WitnessUtxo.script := [Byte.x00; Byte.x14; Byte.x02];
                    WitnessUtxo.value := 5000 |} [] None];
            Psbt.outputs :=
              [{| Output.address := "tb1qlj64u6fqutr0xue85kl55fx0gt4m4urun25p7q";
                  Output.value := 1000 |};
               {| Output.address := "tb1qt5j5snh3nt5d6udhekupyrp6rqdnpwmyedjy9s";
                  Output.value := 3800 |}] |}.
Proof. reflexivity. Qed.

(** UTXO of 1200: a single output of 1000 and no change output. *)
Example scenario_no_change :
  result (build (constants := assignment_constants) (lib := sample_lib)
            "key" "tb1qt5j5snh3nt5d6udhekupyrp6rqdnpwmyedjy9s"
            (sample_utxo 1200) (serving [])) =
  Normal {| Psbt.network := testnet;
            Psbt.inputs :=
              [Input.make sample_txid (Number.whole 1)
                 {| WitnessUtxo.script := [Byte.x00; Byte.x14; Byte.x02];
                    WitnessUtxo.value := 1200 |} [] None];
            Psbt.outputs :=
              [{| Output.address := "tb1qlj64u6fqutr0xue85kl55fx0gt4m4urun25p7q";
                  Output.value := 1000 |}] |}.
Proof. reflexivity. Qed.

(** UTXO of 1201: the change of one satoshi is still paid out. *)
Example scenario_smallest_change :
  exists psbt,
    result (build (constants := assignment_constants) (lib := sample_lib)
              "key" "tb1qt5j5snh3nt5d6udhekupyrp6rqdnpwmyedjy9s"
              (sample_utxo 1201) (serving [])) = Normal psbt /\
    map Output.value (Psbt.outputs psbt) = [1000; 1].
Proof. eexists. split; reflexivity. Qed.

(** UTXO of 1000: the change would be -200 and [build] throws. *)
Example scenario_not_enough :
  result (build (constants := assignment_constants) (lib := sample_lib)
            "key" "tb1qt5j5snh3nt5d6udhekupyrp6rqdnpwmyedjy9s"
            (sample_utxo 1000) (serving [])) =
  Throw (new_Error "Input amount is not enough to cover the transaction and fee.").
Proof. reflexivity. Qed.

(** Selection skips the UTXOs that are too small and keeps the order. *)
Example scenario_select_first :
  select (constants := assignment_constants)
    [sample_utxo 500; sample_utxo 1200; sample_utxo 5000] = Normal (sample_utxo 1200).
Proof. reflexivity. Qed.

Example scenario_select_none :
  select (constants := assignment_constants) [sample_utxo 500; sample_utxo 1199] =
  Throw (new_Error
           "No UTXO with sufficient balance found. Need at least 1200 satoshis.").
Proof. reflexivity. Qed.

(** A rejected broadcast: the run makes its three requests once and reports
    the message of the transport error. *)
Example scenario_broadcast_rejected :
  let relay := {| get_utxo := fun _ => Resolved [sample_utxo 5000];
                  get_hex := fun _ => Resolved "0200";
                  post_tx := fun _ _ =>
                    Rejected (new_Error "Request failed with status code 400") |} in
  let run := simulatePSBT (constants := assignment_constants) (lib := sample_lib) relay in
  network_calls (trace run) =
    [axios_get "https://mempool.space/testnet/api/address/tb1qt5j5snh3nt5d6udhekupyrp6rqdnpwmyedjy9s/utxo";
     axios_get "https://mempool.space/testnet/api/tx/e3b0c44298fc1c149afbf4c8996fb92427ae41e4649b934ca495991b7852b855/hex";
     axios_post "https://mempool.space/testnet/api/tx" "02000000000101"]
  /\ In (console_error
          "  - Message: Failed to broadcast transaction: Request failed with status code 400")
        (trace run).
Proof. split; [reflexivity|]. vm_compute. tauto. Qed.

(** What a second [finalizeAllInputs()] does is the library's choice: one
    library in the place of bitcoinjs-lib refuses it, another returns the
    transaction unchanged; the program calls it once. *)
Lemma second_finalize_depends_on_library :
  let signed := Psbt.make testnet
                  [Input.make sample_txid (Number.whole 1) (WitnessUtxo.make [] 5000)
                     [([Byte.x02], [Byte.x30])] None] [] in
  (exists final,
      @Psbt_finalizeAllInputs sample_lib signed = Normal final /\
      exists e, @Psbt_finalizeAllInputs sample_lib final = Throw e)
  /\ (exists final,
         @Psbt_finalizeAllInputs lenient_lib signed = Normal final /\
         @Psbt_finalizeAllInputs lenient_lib final = Normal final).
Proof.
  split; eexists; (split; [reflexivity|]); [eexists|]; reflexivity.
Qed.

(** ** Instances on concrete runs *)

(** C3 on the UTXO of 5000 satoshis. *)
Lemma build_conserves_value_sample :
  exists psbt,
    result (build (constants := assignment_constants) (lib := sample_lib)
              "key" "tb1qt5j5snh3nt5d6udhekupyrp6rqdnpwmyedjy9s"
              (sample_utxo 5000) (serving [])) = Normal psbt /\
    sum_outputs psbt + 200 = sum_inputs psbt.
Proof.
  eexists. split; [reflexivity|].
  exact (build_conserves_value (constants := assignment_constants) (lib := sample_lib)
           "key" "tb1qt5j5snh3nt5d6udhekupyrp6rqdnpwmyedjy9s"
           (sample_utxo 5000) (serving []) _ eq_refl).
Defined.

(** C5 on the UTXO of 5000 satoshis. *)
Lemma build_single_input_sample :
  exists psbt,
    result (build (constants := assignment_constants) (lib := sample_lib)
              "key" "tb1qt5j5snh3nt5d6udhekupyrp6rqdnpwmyedjy9s"
              (sample_utxo 5000) (serving [])) = Normal psbt /\
    exists input,
      Psbt.inputs psbt = [input] /\
      Input.hash input = sample_txid /\
      Input.index input = Number.whole 1 /\
      Number.whole (WitnessUtxo.value (Input.witnessUtxo input)) = Number.whole 5000 /\
      WitnessUtxo.script (Input.witnessUtxo input) = [Byte.x00; Byte.x14; Byte.x02].
Proof.
  eexists. split; [reflexivity|].
  exact (build_single_input (constants := assignment_constants) (lib := sample_lib)
           "key" "tb1qt5j5snh3nt5d6udhekupyrp6rqdnpwmyedjy9s"
           (sample_utxo 5000) (serving []) _ eq_refl).
Defined.





(** C4 on a non-empty response, an unreachable service and an empty response. *)
Lemma getUTXOs_outcomes_sample :
  let address := "tb1qt5j5snh3nt5d6udhekupyrp6rqdnpwmyedjy9s"%string in
  let empty_error :=
    new_Error "Failed to fetch UTXOs: No UTXOs found for this address" in
  let network_error := new_Error "Failed to fetch UTXOs: Network Error" in
  result (getUTXOs (constants := assignment_constants) address
            (serving [sample_utxo 5000])) = Normal [sample_utxo 5000]
  /\ result (getUTXOs (constants := assignment_constants) address
               (unreachable "Network Error")) = Throw network_error
  /\ result (getUTXOs (constants := assignment_constants) address (serving []))
     = Throw empty_error
  /\ pipeline (constants := assignment_constants) (lib := sample_lib) (serving []) =
     ([console_log (nl ++ " Wallet Details:");
       console_log "  Address (p2wpkh): tb1qt5j5snh3nt5d6udhekupyrp6rqdnpwmyedjy9s";
       console_log (nl ++ "Fetching UTXOs for address: tb1qt5j5snh3nt5d6udhekupyrp6rqdnpwmyedjy9s");
       axios_get "https://mempool.space/testnet/api/address/tb1qt5j5snh3nt5d6udhekupyrp6rqdnpwmyedjy9s/utxo";
       console_log "  - Found 0 UTXO(s)"],
      Throw empty_error)
  /\ (fetch_failure_kind empty_error = NoFundsError /\
      fetch_failure_kind network_error = NetworkError /\
      empty_error <> network_error).
Proof.
  intros address empty_error network_error.
  pose proof (getUTXOs_outcomes (constants := assignment_constants)
                (lib := sample_lib) address (serving [sample_utxo 5000])) as Hfull.
  pose proof (getUTXOs_outcomes (constants := assignment_constants)
                (lib := sample_lib) address (unreachable "Network Error")) as Hdown.
  pose proof (getUTXOs_outcomes (constants := assignment_constants)
                (lib := sample_lib) address (serving [])) as Hnone.
  split; [|split; [|split; [|split]]].
  - refine (proj1 Hfull _ eq_refl _). discriminate.
  - exact (proj1 (proj2 Hdown) _ eq_refl).
  - exact (proj1 (proj2 (proj2 Hnone)) eq_refl).
  - exact (proj1 (proj2 (proj2 (proj2 Hnone)))
             (privateKey (WALLET (Constants := assignment_constants)))
             eq_refl eq_refl).
  - refine (proj2 (proj2 (proj2 (proj2 Hnone)))
              (serving []) (unreachable "Network Error") (new_Error "Network Error")
              empty_error network_error eq_refl eq_refl _ eq_refl eq_refl).
    discriminate.
Defined.

(** C6 on a complete run: the broadcast is in the trace, and every stage
    before it completed. *)
Lemma broadcast_only_after_success_sample :
  let w := serving [sample_utxo 5000] in
  let address := "tb1qt5j5snh3nt5d6udhekupyrp6rqdnpwmyedjy9s"%string in
  In (axios_post "https://mempool.space/testnet/api/tx" "02000000000101")
     (trace (simulatePSBT (constants := assignment_constants) (lib := sample_lib) w))
  /\ exists (keyPair : @KeyPair sample_lib) utxos utxo hex psbt signed final
            (tx : @Transaction sample_lib),
      @ECPair_fromWIF sample_lib
        "cTGAe5L4f2yUUFf1dfc4cbu8dWSmwDv2Yy6Hys4LvqMwmXqEAw9T" testnet
        = Normal keyPair /\
      result (getUTXOs (constants := assignment_constants) address w) = Normal utxos /\
      select (constants := assignment_constants) utxos = Normal utxo /\
      result (getTransactionHex (constants := assignment_constants)
                (Utxo.txid utxo) w) = Normal hex /\
      result (build (constants := assignment_constants) (lib := sample_lib)
                keyPair address utxo w) = Normal psbt /\
      @Psbt_signInput sample_lib psbt 0 keyPair = Normal signed /\
      @Psbt_finalizeAllInputs sample_lib signed = Normal final /\
      @Psbt_extractTransaction sample_lib final = Normal tx /\
      "https://mempool.space/testnet/api/tx"%string
        = tx_url (constants := assignment_constants) /\
      "02000000000101"%string = @Transaction_toHex sample_lib tx.
Proof.
  intros w address.
  assert (posted : In (axios_post "https://mempool.space/testnet/api/tx" "02000000000101")
                     (trace (simulatePSBT (constants := assignment_constants)
                               (lib := sample_lib) w))).
  { vm_compute. tauto. }
  split; [exact posted|].
  exact (proj1 (proj2 (broadcast_only_after_success (constants := assignment_constants)
                         (lib := sample_lib) w)) _ _ posted).
Defined.

(** ** More on coin selection *)

Section SelectionMore.
Context {constants : Constants}.

(** Selection reads nothing but the values: under any rewriting of the list
    entries that keeps each value (another status, txid or vout), the entry at
    the same position is selected, or selection fails alike. In particular
    an unconfirmed output is selected like a confirmed one. *)
Theorem select_reads_values_only (g : UTXO -> UTXO) (utxos : list UTXO) :
  (forall u, Utxo.value (g u) = Utxo.value u) ->
  select (map g utxos) =
  match select utxos with
  | Normal utxo => Normal (g utxo)
  | Throw e => Throw e
  end.
Proof.
  intros Hg. unfold select.
  induction utxos as [|u utxos IH]; simpl; [reflexivity|].
  rewrite Hg. destruct (Number.geb (Utxo.value u) (AMOUNT_TO_SEND + FEE));
    [reflexivity|].
  exact IH.
Qed.

(** Selection over two lists put end to end: the choice from the first list
    stands, and the second list is searched only when the first has no
    sufficient UTXO. *)
Theorem select_app (first second : list UTXO) :
  select (first ++ second) =
  match select first with
  | Normal utxo => Normal utxo
  | Throw _ => select second
  end.
Proof.
  unfold select.
  induction first as [|u first IH]; simpl; [reflexivity|].
  destruct (Number.geb (Utxo.value u) (AMOUNT_TO_SEND + FEE)); [reflexivity|].
  exact IH.
Qed.

End SelectionMore.

(** ** More on transaction construction *)

Section ConstructionMore.
Context {constants : Constants} {lib : BitcoinLib}.

(** When the amount to send is positive, a transaction that [build]
    completes with has one or two outputs, each of a positive value: no
    output of zero or of a negative value is ever added. *)
Theorem build_outputs_positive
    (keyPair : KeyPair) (address : string) (utxo : UTXO) (w : World) (psbt : Psbt.t) :
  0 < AMOUNT_TO_SEND ->
  result (build keyPair address utxo w) = Normal psbt ->
  Forall (fun o => 0 < Output.value o) (Psbt.outputs psbt) /\
  (1 <= length (Psbt.outputs psbt) <= 2)%nat.
Proof.
  intros Hamount H. apply build_completed in H as (_ & _ & Hpos & ->).
  cbn [Psbt.outputs]. unfold destination_output, change_output.
  destruct (Z.gtb_spec (change_of utxo) 0) as [Hgt|Hle].
  - split; [|simpl; lia]. repeat constructor; simpl; lia.
  - split; [|simpl; lia]. repeat constructor; simpl; lia.
Qed.
End ConstructionMore.

(** ** Whole runs *)

Lemma contiguous_here (part post : list Event) : contiguous part (part ++ post).
Proof. exists [], post. reflexivity. Qed.

Lemma contiguous_cons (e : Event) (part whole : list Event) :
  contiguous part whole -> contiguous part (e :: whole).
Proof. intros (pre & post & ->). exists (e :: pre), post. reflexivity. Qed.

Lemma contiguous_app_r (l part whole : list Event) :
  contiguous part whole -> contiguous part (l ++ whole).
Proof.
  intros (pre & post & ->). exists (l ++ pre)%list, post.
  now rewrite app_assoc.
Qed.

Lemma contiguous_app_l (l part whole : list Event) :
  contiguous part whole -> contiguous part (whole ++ l).
Proof.
  intros (pre & post & ->). exists pre, (post ++ l)%list.
  now rewrite <- !app_assoc.
Qed.

Section Runs.
Context {constants : Constants} {lib : BitcoinLib}.

Lemma getUTXOs_normal (address : string) (w : World) (utxos : list UTXO) :
  result (getUTXOs address w) = Normal utxos ->
  get_utxo w (utxo_url address) = Resolved utxos /\ utxos <> [].
Proof.
  rewrite getUTXOs_run.
  destruct (get_utxo w (utxo_url address)) as [[|u data]|error];
    try discriminate.
  intros [= <-]. split; [reflexivity | discriminate].
Qed.

Lemma broadcastTransaction_normal (txHex : string) (w : World) (txid : string) :
  result (broadcastTransaction txHex w) = Normal txid ->
  post_tx w tx_url txHex = Resolved txid.
Proof.
  rewrite broadcastTransaction_run. unfold result. cbn [snd].
  destruct (post_tx w tx_url txHex); [now intros [= <-] | discriminate].
Qed.

(** The stages behind a completed [try] block. *)
Lemma pipeline_completed (w : World) (locals : Locals) :
  result (pipeline w) = Normal locals ->
  exists utxos hex psbt signed tx,
    ECPair_fromWIF (privateKey WALLET) network = Normal (l_keyPair locals) /\
    l_address locals =
      Payment.address (payments_p2wpkh (publicKey (l_keyPair locals)) network) /\
    result (getUTXOs (l_address locals) w) = Normal utxos /\
    select utxos = Normal (l_utxo locals) /\
    result (getTransactionHex (Utxo.txid (l_utxo locals)) w) = Normal hex /\
    result (build (l_keyPair locals) (l_address locals) (l_utxo locals) w)
      = Normal psbt /\
    Psbt_signInput psbt 0 (l_keyPair locals) = Normal signed /\
    Psbt_finalizeAllInputs signed = Normal (l_psbt locals) /\
    Psbt_extractTransaction (l_psbt locals) = Normal tx /\
    l_txHex locals = Transaction_toHex tx /\
    result (broadcastTransaction (l_txHex locals) w) = Normal (l_txid locals) /\
    network_calls (trace (pipeline w)) =
      all_calls (l_address locals) (Utxo.txid (l_utxo locals)) (l_txHex locals).
Proof.
  intros Hrun.
  pose proof (pipeline_outline w) as Hout. rewrite Hrun in Hout.
  unfold outline in Hout.
  destruct (ECPair_fromWIF _ _) as [keyPair|e] eqn:E0; [|discriminate].
  cbv zeta in Hout.
  destruct (result (getUTXOs _ w)) as [utxos|e] eqn:E1; [|discriminate].
  destruct (select utxos) as [utxo|e] eqn:E2; [|discriminate].
  destruct (result (getTransactionHex _ w)) as [hex|e] eqn:E3; [|discriminate].
  destruct (result (build _ _ _ w)) as [psbt|e] eqn:E4; [|discriminate].
  destruct (Psbt_signInput _ _ _) as [signed|e] eqn:E5; [|discriminate].
  destruct (Psbt_finalizeAllInputs _) as [final|e] eqn:E6; [|discriminate].
  destruct (Psbt_extractTransaction _) as [tx|e] eqn:E7; [|discriminate].
  destruct (result (broadcastTransaction _ w)) as [txid|e] eqn:E8; [|discriminate].
  injection Hout as Hcalls ->. cbn [l_keyPair l_address l_utxo l_psbt l_txHex l_txid].
  exists utxos, hex, psbt, signed, tx. repeat split; assumption.
Qed.
End Runs.

Section CompletedRuns.
Context {constants : Constants} {lib : BitcoinLib}.

(** A run whose [try] block completes spent a UTXO that the service listed for
    the address derived from the wallet's private key, and whose value
    covers the amount and the fee; the transaction id it ends with is the
    relay's answer to the broadcast of its transaction hex. *)
Theorem completed_run_is_funded (w : World) (locals : Locals) :
  result (pipeline w) = Normal locals ->
  ECPair_fromWIF (privateKey WALLET) network = Normal (l_keyPair locals) /\
  l_address locals =
    Payment.address (payments_p2wpkh (publicKey (l_keyPair locals)) network) /\
  (exists utxos,
      get_utxo w (utxo_url (l_address locals)) = Resolved utxos /\
      In (l_utxo locals) utxos) /\
  (exists v,
      Utxo.value (l_utxo locals) = Number.whole v /\
      AMOUNT_TO_SEND + FEE <= v) /\
  post_tx w tx_url (l_txHex locals) = Resolved (l_txid locals).
Proof.
  intros Hrun.
  destruct (pipeline_completed w locals Hrun)
    as (utxos & hex & psbt & signed & tx & E0 & Ea & E1 & E2 & _ & E4 & _ & _ & _ & _
        & E8 & _).
  apply getUTXOs_normal in E1 as [E1 _].
  unfold select in E2.
  destruct (find _ utxos) as [x|] eqn:F; [|discriminate].
  injection E2 as ->. apply find_some in F as [Hin Hx].
  apply sufficient_true in Hx.
  apply broadcastTransaction_normal in E8.
  apply build_completed in E4 as (Hv & _).
  repeat split; eauto.
Qed.

(** In a run whose [try] block completes, the hex that was posted is the
    serialization of the transaction extracted from the finalized, signed
    state of the transaction built on the selected UTXO: one input spending
    it, the destination output, and the change (when positive) paid to the
    address derived from the wallet's key. The run made its three requests. *)
Theorem completed_run_broadcasts_built_transaction (w : World) (locals : Locals) :
  result (pipeline w) = Normal locals ->
  let value := Number.floor (Utxo.value (l_utxo locals)) in
  let change := value - AMOUNT_TO_SEND - FEE in
  let built :=
    {| Psbt.network := network;
       Psbt.inputs := [spending (l_keyPair locals) (l_utxo locals)];
       Psbt.outputs :=
         destination_output ::
         (if change >? 0
          then [{| Output.address := l_address locals; Output.value := change |}]
          else []) |} in
  Utxo.value (l_utxo locals) = Number.whole value /\
  exists signed tx,
    Psbt_signInput built 0 (l_keyPair locals) = Normal signed /\
    Psbt_finalizeAllInputs signed = Normal (l_psbt locals) /\
    Psbt_extractTransaction (l_psbt locals) = Normal tx /\
    l_txHex locals = Transaction_toHex tx /\
    network_calls (trace (simulatePSBT w)) =
      all_calls (l_address locals) (Utxo.txid (l_utxo locals)) (l_txHex locals).
Proof.
  intros Hrun value change built.
  destruct (pipeline_completed w locals Hrun)
    as (utxos & hex & psbt & signed & tx & _ & _ & _ & _ & _ & E4 & E5 & E6 & E7
        & E8 & _ & Hcalls).
  apply build_completed in E4 as (Hv & _ & _ & ->).
  split; [exact Hv|].
  exists signed, tx. repeat split; try assumption.
  rewrite simulatePSBT_calls, <- pipeline_outline. exact Hcalls.
Qed.
End CompletedRuns.

Section FailingRuns.
Context {constants : Constants} {lib : BitcoinLib}.

(** When the service lists UTXOs and none covers the amount and the fee, the
    [try] block ends right after the first request: it has printed the
    wallet, the fetch and the count, made no second request, built nothing,
    and throws the insufficient-balance error. *)
Theorem insufficient_funds_run (w : World) (keyPair : KeyPair) (utxos : list UTXO) :
  ECPair_fromWIF (privateKey WALLET) network = Normal keyPair ->
  let own := Payment.address (payments_p2wpkh (publicKey keyPair) network) in
  get_utxo w (utxo_url own) = Resolved utxos ->
  utxos <> [] ->
  (forall u, In u utxos -> Number.floor (Utxo.value u) < AMOUNT_TO_SEND + FEE) ->
  pipeline w =
  ((wallet_details own ++ fetching own ++ [found (length utxos)])%list,
   Throw insufficient_balance).
Proof.
  intros E0 own E1 Hne Hall.
  assert (Hsel : select utxos = Throw insufficient_balance).
  { unfold select. rewrite (proj2 (find_none_iff _ utxos)); [reflexivity|].
    intros y Hy. apply sufficient_false. auto. }
  unfold pipeline, bind, call, emit. rewrite E0. cbv beta iota zeta.
  fold own. rewrite getUTXOs_run, E1.
  destruct utxos as [|u rest]; [contradiction|].
  cbv beta iota. rewrite Hsel. reflexivity.
Qed.

(** The fetch of the referenced transaction can end the run although its
    result is never used: when that request is rejected, the [try] block
    stops after its second request, before any transaction is built, and
    throws the error of [getTransactionHex]. *)
Theorem source_fetch_failure_run
    (w : World) (keyPair : KeyPair) (utxos : list UTXO) (utxo : UTXO) (error : Error) :
  ECPair_fromWIF (privateKey WALLET) network = Normal keyPair ->
  let own := Payment.address (payments_p2wpkh (publicKey keyPair) network) in
  get_utxo w (utxo_url own) = Resolved utxos ->
  select utxos = Normal utxo ->
  get_hex w (hex_url (Utxo.txid utxo)) = Rejected error ->
  pipeline w =
  ((wallet_details own ++ fetching own ++ [found (length utxos)]
      ++ selected_lines utxo
      ++ [console_log (nl ++ "Fetching transaction hex for: " ++ Utxo.txid utxo);
          axios_get (hex_url (Utxo.txid utxo))])%list,
   Throw (new_Error ("Failed to fetch transaction hex for UTXO: " ++ message error))).
Proof.
  intros E0 own E1 E2 E3.
  unfold pipeline, bind, call, emit. rewrite E0. cbv beta iota zeta.
  fold own. rewrite getUTXOs_run, E1.
  destruct utxos as [|u rest]; [discriminate|].
  cbv beta iota. rewrite E2. cbv beta iota.
  rewrite getTransactionHex_run, E3. reflexivity.
Qed.
End FailingRuns.

(** ** What a run prints and where it sends requests *)

Lemma filter_none {A} (p : A -> bool) (l : list A) :
  Forall (fun x => p x = false) l -> filter p l = [].
Proof.
  induction 1 as [|x l Hx _ IH]; simpl; [reflexivity|]. now rewrite Hx.
Qed.

Section Console.
Context {constants : Constants} {lib : BitcoinLib}.

Lemma getUTXOs_quiet (address : string) (w : World) :
  Forall (fun e => is_report e = false) (trace (getUTXOs address w)).
Proof.
  rewrite getUTXOs_run.
  destruct (get_utxo w (utxo_url address)) as [[|u data]|error];
    repeat constructor.
Qed.

Lemma getTransactionHex_quiet (txid : string) (w : World) :
  Forall (fun e => is_report e = false) (trace (getTransactionHex txid w)).
Proof.
  rewrite getTransactionHex_run.
  destruct (get_hex w (hex_url txid)); repeat constructor.
Qed.

Lemma build_quiet (keyPair : KeyPair) (address : string) (utxo : UTXO) (w : World) :
  Forall (fun e => is_report e = false) (trace (build keyPair address utxo w)).
Proof. build_cases; repeat constructor. Qed.

Lemma pipeline_quiet (w : World) :
  Forall (fun e => is_report e = false) (trace (pipeline w)).
Proof.
  unfold pipeline, bind, call, emit, ret, trace.
  cbv beta iota zeta.
  destruct (ECPair_fromWIF (privateKey WALLET) network) as [keyPair|e0];
    [|constructor].
  pose proof (getUTXOs_quiet
                (Payment.address (payments_p2wpkh (publicKey keyPair) network)) w)
    as Q1.
  destruct (getUTXOs _ w) as [t1 [utxos|e1]]; unfold trace in Q1; cbn [fst] in *;
    [|repeat (apply Forall_app; split); repeat constructor; assumption].
  destruct (select utxos) as [utxo|e2];
    [|cbn [fst]; repeat (apply Forall_app; split); repeat constructor; assumption].
  pose proof (getTransactionHex_quiet (Utxo.txid utxo) w) as Q2.
  destruct (getTransactionHex _ w) as [t2 [hex|e2]]; unfold trace in Q2;
    cbn [fst] in *;
    [|repeat (apply Forall_app; split); repeat constructor; assumption].
  pose proof (build_quiet keyPair
                (Payment.address (payments_p2wpkh (publicKey keyPair) network))
                utxo w) as Q3.
  destruct (build _ _ _ w) as [t3 [psbt|e3]]; unfold trace in Q3; cbn [fst] in *;
    [|repeat (apply Forall_app; split); repeat constructor; assumption].
  destruct (Psbt_signInput psbt 0 keyPair) as [signed|e4];
    [|cbn [fst]; repeat (apply Forall_app; split); repeat constructor; assumption].
  destruct (Psbt_finalizeAllInputs signed) as [final|e5];
    [|cbn [fst]; repeat (apply Forall_app; split); repeat constructor; assumption].
  destruct (Psbt_extractTransaction final) as [tx|e6];
    [|cbn [fst]; repeat (apply Forall_app; split); repeat constructor; assumption].
  rewrite broadcastTransaction_run.
  destruct (post_tx w tx_url (Transaction_toHex tx)) as [txid|e7];
    cbn [fst]; repeat (apply Forall_app; split); repeat constructor; assumption.
Qed.

(** What a run writes with [console.error] is exactly the report of the
    error that ended its [try] block: two lines carrying that error and its
    message when the block threw, nothing when it completed. *)
Theorem reports_exactly_the_failure (w : World) :
  filter is_report (trace (simulatePSBT w)) =
  match result (pipeline w) with
  | Normal _ => []
  | Throw error => report error
  end.
Proof.
  rewrite simulatePSBT_run. unfold trace at 1. cbn [fst filter is_report].
  rewrite filter_app, (filter_none _ _ (pipeline_quiet w)).
  destruct (result (pipeline w)); reflexivity.
Qed.
End Console.

Section Order.
Context {constants : Constants} {lib : BitcoinLib}.

Lemma pipeline_post_order (w : World) (url body : string) :
  In (axios_post url body) (trace (pipeline w)) ->
  contiguous
    [console_log body;
     console_log (nl ++ "Broadcasting transaction to the Bitcoin Testnet...");
     axios_post url body]
    (trace (pipeline w)).
Proof.
  unfold pipeline, bind, call, emit, ret, trace.
  cbv beta iota zeta.
  destruct (ECPair_fromWIF (privateKey WALLET) network) as [keyPair|e0];
    [|intros []].
  pose proof (getUTXOs_calls
                (Payment.address (payments_p2wpkh (publicKey keyPair) network)) w)
    as C1.
  destruct (getUTXOs _ w) as [t1 [utxos|e1]]; unfold trace in C1; cbn [fst] in *.
  2:{ intros Hin. apply in_network_calls in Hin; [|reflexivity].
      autorewrite with calls in Hin. rewrite C1 in Hin.
      now destruct Hin as [|[]]. }
  destruct (select utxos) as [utxo|e2]; cbn [fst].
  2:{ intros Hin. apply in_network_calls in Hin; [|reflexivity].
      autorewrite with calls in Hin. rewrite C1 in Hin.
      now destruct Hin as [|[]]. }
  pose proof (getTransactionHex_calls (Utxo.txid utxo) w) as C2.
  destruct (getTransactionHex _ w) as [t2 [hex|e2]]; unfold trace in C2;
    cbn [fst] in *.
  2:{ intros Hin. apply in_network_calls in Hin; [|reflexivity].
      autorewrite with calls in Hin. rewrite C1, C2 in Hin.
      now destruct Hin as [|[|[]]]. }
  pose proof (build_calls keyPair
                (Payment.address (payments_p2wpkh (publicKey keyPair) network))
                utxo w) as C3.
  destruct (build _ _ _ w) as [t3 [psbt|e3]]; unfold trace in C3; cbn [fst] in *.
  2:{ intros Hin. apply in_network_calls in Hin; [|reflexivity].
      autorewrite with calls in Hin. rewrite C1, C2, C3 in Hin.
      now destruct Hin as [|[|[]]]. }
  destruct (Psbt_signInput psbt 0 keyPair) as [signed|e4]; cbn [fst].
  2:{ intros Hin. apply in_network_calls in Hin; [|reflexivity].
      autorewrite with calls in Hin. rewrite C1, C2, C3 in Hin.
      now destruct Hin as [|[|[]]]. }
  destruct (Psbt_finalizeAllInputs signed) as [final|e5]; cbn [fst].
  2:{ intros Hin. apply in_network_calls in Hin; [|reflexivity].
      autorewrite with calls in Hin. rewrite C1, C2, C3 in Hin.
      now destruct Hin as [|[|[]]]. }
  destruct (Psbt_extractTransaction final) as [tx|e6]; cbn [fst].
  2:{ intros Hin. apply in_network_calls in Hin; [|reflexivity].
      autorewrite with calls in Hin. rewrite C1, C2, C3 in Hin.
      now destruct Hin as [|[|[]]]. }
  rewrite broadcastTransaction_run.
  assert (Hsame : forall rest,
             In (axios_post url body)
               (network_calls t1 ++ network_calls t2 ++ network_calls t3
                  ++ axios_post tx_url (Transaction_toHex tx) :: rest) ->
             rest = [] -> url = tx_url /\ body = Transaction_toHex tx).
  { intros rest Hin ->. rewrite C1, C2, C3 in Hin.
    destruct Hin as [H|[H|[H|[]]]]; try discriminate.
    injection H as <- <-. split; reflexivity. }
  destruct (post_tx w tx_url (Transaction_toHex tx)) as [txid|e7]; cbn [fst app];
    intros Hin; apply in_network_calls in Hin; try reflexivity;
    autorewrite with calls in Hin;
    destruct (Hsame _ Hin eq_refl) as [-> ->];
    repeat first [ apply (contiguous_here
                            [console_log (Transaction_toHex tx);
                             console_log _;
                             axios_post tx_url (Transaction_toHex tx)])
                 | apply contiguous_cons
                 | apply contiguous_app_r ].
Qed.

(** The signed transaction is printed before it is sent: whenever a run posts
    a body, the console line with that same text and the line announcing the
    broadcast come immediately before the request, so the hex is on the
    console also when the relay then rejects it. *)
Theorem raw_hex_printed_before_broadcast (w : World) (url body : string) :
  In (axios_post url body) (trace (simulatePSBT w)) ->
  contiguous
    [console_log body;
     console_log (nl ++ "Broadcasting transaction to the Bitcoin Testnet...");
     axios_post url body]
    (trace (simulatePSBT w)).
Proof.
  rewrite simulatePSBT_run. unfold trace at 1 3. cbn [fst].
  intros [H|H]; [discriminate|].
  apply contiguous_cons, contiguous_app_l, pipeline_post_order.
  apply in_app_or in H as [H|H]; [exact H|].
  destruct (result (pipeline w)); [destruct H|].
  destruct H as [H|[H|[]]]; discriminate.
Qed.
End Order.

Section Destinations.
Context {constants : Constants} {lib : BitcoinLib}.

(** An error thrown by the library while signing, finalizing or extracting
    reaches the report as it is, without a prefix, and ends the run after its
    two fetches: nothing is posted. *)
Theorem library_failure_run
    (w : World) (keyPair : KeyPair) (utxos : list UTXO) (utxo : UTXO)
    (hex : string) (psbt : Psbt.t) (error : Error) :
  ECPair_fromWIF (privateKey WALLET) network = Normal keyPair ->
  let own := Payment.address (payments_p2wpkh (publicKey keyPair) network) in
  result (getUTXOs own w) = Normal utxos ->
  select utxos = Normal utxo ->
  result (getTransactionHex (Utxo.txid utxo) w) = Normal hex ->
  result (build keyPair own utxo w) = Normal psbt ->
  (Psbt_signInput psbt 0 keyPair = Throw error
   \/ (exists signed,
          Psbt_signInput psbt 0 keyPair = Normal signed /\
          Psbt_finalizeAllInputs signed = Throw error)
   \/ (exists signed final,
          Psbt_signInput psbt 0 keyPair = Normal signed /\
          Psbt_finalizeAllInputs signed = Normal final /\
          Psbt_extractTransaction final = Throw error)) ->
  result (pipeline w) = Throw error /\
  network_calls (trace (simulatePSBT w)) =
    [axios_get (utxo_url own); axios_get (hex_url (Utxo.txid utxo))] /\
  filter is_report (trace (simulatePSBT w)) = report error.
Proof.
  intros E0 own E1 E2 E3 E4 Hlib.
  assert (Hout : outline w =
                 ([axios_get (utxo_url own); axios_get (hex_url (Utxo.txid utxo))],
                  Throw error)).
  { unfold outline. rewrite E0. cbv zeta. fold own. rewrite E1, E2, E3, E4.
    destruct Hlib as [E5|[(signed & E5 & E6)|(signed & final & E5 & E6 & E7)]].
    - now rewrite E5.
    - now rewrite E5, E6.
    - now rewrite E5, E6, E7. }
  assert (Hres : result (pipeline w) = Throw error).
  { pose proof (pipeline_outline w) as H. rewrite Hout in H. now injection H. }
  split; [exact Hres|]. split.
  - now rewrite simulatePSBT_calls, Hout.
  - rewrite simulatePSBT_run. unfold trace at 1. cbn [fst filter is_report].
    rewrite filter_app, (filter_none _ _ (pipeline_quiet w)), Hres.
    reflexivity.
Qed.
End Destinations.

(** ** Instances of the properties of runs *)

(** Selection is the same when every listed output is unconfirmed. *)
Lemma select_reads_values_only_sample :
  select (constants := assignment_constants)
    (map (with_status {| confirmed := false |}) [sample_utxo 500; sample_utxo 5000]) =
  match select (constants := assignment_constants)
          [sample_utxo 500; sample_utxo 5000] with
  | Normal utxo => Normal (with_status {| confirmed := false |} utxo)
  | Throw e => Throw e
  end.
Proof.
  exact (select_reads_values_only (constants := assignment_constants)
           (with_status {| confirmed := false |})
           [sample_utxo 500; sample_utxo 5000] (fun u => eq_refl)).
Defined.

(** The outputs built on the UTXO of 5000 satoshis. *)
Lemma build_outputs_positive_sample :
  exists psbt,
    result (build (constants := assignment_constants) (lib := sample_lib)
              "key" "tb1qt5j5snh3nt5d6udhekupyrp6rqdnpwmyedjy9s"
              (sample_utxo 5000) (serving [])) = Normal psbt /\
    Forall (fun o => 0 < Output.value o) (Psbt.outputs psbt) /\
    (1 <= length (Psbt.outputs psbt) <= 2)%nat.
Proof.
  eexists. split; [reflexivity|].
  exact (build_outputs_positive (constants := assignment_constants)
           (lib := sample_lib) "key" "tb1qt5j5snh3nt5d6udhekupyrp6rqdnpwmyedjy9s"
           (sample_utxo 5000) (serving []) _ eq_refl eq_refl).
Defined.

(** A complete run against a service that lists two UTXOs. *)
Lemma completed_run_is_funded_sample :
  let w := serving [sample_utxo 500; sample_utxo 5000] in
  exists locals,
    result (pipeline (constants := assignment_constants) (lib := sample_lib) w)
      = Normal locals /\
    l_utxo locals = sample_utxo 5000 /\
    (exists utxos,
        get_utxo w (utxo_url (constants := assignment_constants) (l_address locals))
          = Resolved utxos /\ In (l_utxo locals) utxos) /\
    (exists v, Utxo.value (l_utxo locals) = Number.whole v /\ 1000 + 200 <= v) /\
    post_tx w (tx_url (constants := assignment_constants)) (l_txHex locals)
      = Resolved (l_txid locals).
Proof.
  intros w. eexists. split; [reflexivity|]. split; [reflexivity|].
  exact (proj2 (proj2 (completed_run_is_funded (constants := assignment_constants)
                         (lib := sample_lib) w _ eq_refl))).
Defined.

Lemma completed_run_broadcasts_built_transaction_sample :
  let w := serving [sample_utxo 5000] in
  exists locals,
    result (pipeline (constants := assignment_constants) (lib := sample_lib) w)
      = Normal locals /\
    network_calls
      (trace (simulatePSBT (constants := assignment_constants) (lib := sample_lib) w))
    = all_calls (constants := assignment_constants)
        (l_address locals) (Utxo.txid (l_utxo locals)) (l_txHex locals).
Proof.
  intros w. eexists. split; [reflexivity|].
  destruct (completed_run_broadcasts_built_transaction
              (constants := assignment_constants) (lib := sample_lib) w _ eq_refl)
    as (_ & signed & tx & _ & _ & _ & _ & Hcalls).
  exact Hcalls.
Defined.

(** A service that lists only a UTXO of 500 satoshis. *)
Lemma insufficient_funds_run_sample :
  pipeline (constants := assignment_constants) (lib := sample_lib)
    (serving [sample_utxo 500]) =
  ([console_log (nl ++ " Wallet Details:");
    console_log "  Address (p2wpkh): tb1qt5j5snh3nt5d6udhekupyrp6rqdnpwmyedjy9s";
    console_log (nl ++ "Fetching UTXOs for address: tb1qt5j5snh3nt5d6udhekupyrp6rqdnpwmyedjy9s");
    axios_get "https://mempool.space/testnet/api/address/tb1qt5j5snh3nt5d6udhekupyrp6rqdnpwmyedjy9s/utxo";
    console_log "  - Found 1 UTXO(s)"],
   Throw (new_Error
            "No UTXO with sufficient balance found. Need at least 1200 satoshis.")).
Proof.
  refine (insufficient_funds_run (constants := assignment_constants)
            (lib := sample_lib) (serving [sample_utxo 500])
            "cTGAe5L4f2yUUFf1dfc4cbu8dWSmwDv2Yy6Hys4LvqMwmXqEAw9T"
            [sample_utxo 500] eq_refl eq_refl _ _).
  - discriminate.
  - intros u [<-|[]]. reflexivity.
Defined.

(** A service that lists a sufficient UTXO and has lost its transaction. *)
Lemma source_fetch_failure_run_sample :
  result (pipeline (constants := assignment_constants) (lib := sample_lib)
            (with_hex (serving [sample_utxo 5000])
               (fun _ => Rejected (new_Error "Request failed with status code 404"))))
  = Throw (new_Error
             "Failed to fetch transaction hex for UTXO: Request failed with status code 404").
Proof.
  exact (f_equal snd
           (source_fetch_failure_run (constants := assignment_constants)
              (lib := sample_lib)
              (with_hex (serving [sample_utxo 5000])
                 (fun _ => Rejected (new_Error "Request failed with status code 404")))
              "cTGAe5L4f2yUUFf1dfc4cbu8dWSmwDv2Yy6Hys4LvqMwmXqEAw9T"
              [sample_utxo 5000] (sample_utxo 5000)
              (new_Error "Request failed with status code 404")
              eq_refl eq_refl eq_refl eq_refl)).
Defined.

(** The order of printing and posting in a complete run. *)
Lemma raw_hex_printed_before_broadcast_sample :
  let run := simulatePSBT (constants := assignment_constants) (lib := sample_lib)
               (serving [sample_utxo 5000]) in
  In (axios_post "https://mempool.space/testnet/api/tx" "02000000000101") (trace run)
  /\ contiguous
       [console_log "02000000000101";
        console_log (nl ++ "Broadcasting transaction to the Bitcoin Testnet...");
        axios_post "https://mempool.space/testnet/api/tx" "02000000000101"]
       (trace run).
Proof.
  intros run.
  assert (posted : In (axios_post "https://mempool.space/testnet/api/tx"
                         "02000000000101") (trace run)).
  { vm_compute. tauto. }
  split; [exact posted|].
  exact (raw_hex_printed_before_broadcast (constants := assignment_constants)
           (lib := sample_lib) (serving [sample_utxo 5000]) _ _ posted).
Defined.

(** A library that refuses to sign: its error ends the run unchanged. *)
Lemma library_failure_run_sample :
  let w := serving [sample_utxo 5000] in
  result (pipeline (constants := assignment_constants) (lib := refusing_lib) w)
    = Throw (new_Error "Can not sign for this input with the key")
  /\ network_calls
       (trace (simulatePSBT (constants := assignment_constants) (lib := refusing_lib) w))
     = [axios_get "https://mempool.space/testnet/api/address/tb1qt5j5snh3nt5d6udhekupyrp6rqdnpwmyedjy9s/utxo";
        axios_get "https://mempool.space/testnet/api/tx/e3b0c44298fc1c149afbf4c8996fb92427ae41e4649b934ca495991b7852b855/hex"]
  /\ filter is_report
       (trace (simulatePSBT (constants := assignment_constants) (lib := refusing_lib) w))
     = [console_error_with (nl ++ "An error occurred during the simulation:")
          (new_Error "Can not sign for this input with the key");
        console_error "  - Message: Can not sign for this input with the key"].
Proof.
  intros w.
  exact (library_failure_run (constants := assignment_constants) (lib := refusing_lib)
           w "cTGAe5L4f2yUUFf1dfc4cbu8dWSmwDv2Yy6Hys4LvqMwmXqEAw9T"
           [sample_utxo 5000] (sample_utxo 5000) "0200"
           (Psbt.make testnet
              [Input.make sample_txid (Number.whole 1)
                 (WitnessUtxo.make [Byte.x00; Byte.x14; Byte.x02] 5000) [] None]
              [Output.make "tb1qlj64u6fqutr0xue85kl55fx0gt4m4urun25p7q" 1000;
               Output.make "tb1qt5j5snh3nt5d6udhekupyrp6rqdnpwmyedjy9s" 3800])
           (new_Error "Can not sign for this input with the key")
           eq_refl eq_refl eq_refl eq_refl eq_refl (or_introl eq_refl)).
Defined.

(** ** The threshold *)

Section Threshold.
Context {constants : Constants} {lib : BitcoinLib}.

(** The threshold is inclusive. A UTXO worth exactly the amount plus the fee
    is selected, and when the library accepts its input and the destination
    output it is spent whole, with the destination output alone and nothing
    left over. A UTXO one satoshi short is rejected by selection, and by
    [build] as well once the library has accepted its input. *)
Theorem threshold_is_inclusive
    (keyPair : KeyPair) (address : string) (utxo : UTXO) (w : World) :
  (Utxo.value utxo = Number.whole (AMOUNT_TO_SEND + FEE) ->
   select [utxo] = Normal utxo /\
   (input_refusal keyPair utxo = None ->
    addOutput_refuses (funded keyPair utxo) destination_output = None ->
    exists psbt,
      result (build keyPair address utxo w) = Normal psbt /\
      Psbt.outputs psbt = [destination_output]))
  /\ (Utxo.value utxo = Number.whole (AMOUNT_TO_SEND + FEE - 1) ->
      select [utxo] = Throw insufficient_balance /\
      (input_refusal keyPair utxo = None ->
       result (build keyPair address utxo w) = Throw input_not_enough)).
Proof.
  rewrite build_result. unfold select, change_of, Number.geb. cbn [find].
  split; intros Hv; rewrite Hv; cbn [Number.floor BigInt].
  - destruct (Z.geb_spec (AMOUNT_TO_SEND + FEE) (AMOUNT_TO_SEND + FEE)); [|lia].
    split; [reflexivity|]. intros -> ->.
    destruct (Z.ltb_spec (AMOUNT_TO_SEND + FEE - AMOUNT_TO_SEND - FEE) 0); [lia|].
    destruct (Z.gtb_spec (AMOUNT_TO_SEND + FEE - AMOUNT_TO_SEND - FEE) 0); [lia|].
    eexists. split; reflexivity.
  - destruct (Z.geb_spec (AMOUNT_TO_SEND + FEE - 1) (AMOUNT_TO_SEND + FEE)); [lia|].
    split; [reflexivity|]. intros ->.
    destruct (Z.ltb_spec (AMOUNT_TO_SEND + FEE - 1 - AMOUNT_TO_SEND - FEE) 0);
      [reflexivity | lia].
Qed.
End Threshold.

(** The threshold on the constants of [assignment.js]: 1200 and 1199. *)
Lemma threshold_is_inclusive_sample :
  (select (constants := assignment_constants) [sample_utxo 1200]
     = Normal (sample_utxo 1200) /\
   exists psbt,
     result (build (constants := assignment_constants) (lib := sample_lib)
               "key" "tb1qt5j5snh3nt5d6udhekupyrp6rqdnpwmyedjy9s"
               (sample_utxo 1200) (serving [])) = Normal psbt /\
     Psbt.outputs psbt = [destination_output (constants := assignment_constants)])
  /\ (select (constants := assignment_constants) [sample_utxo 1199]
        = Throw (insufficient_balance (constants := assignment_constants)) /\
      result (build (constants := assignment_constants) (lib := sample_lib)
                "key" "tb1qt5j5snh3nt5d6udhekupyrp6rqdnpwmyedjy9s"
                (sample_utxo 1199) (serving []))
        = Throw input_not_enough).
Proof.
  pose proof (threshold_is_inclusive (constants := assignment_constants)
                (lib := sample_lib) "key"
                "tb1qt5j5snh3nt5d6udhekupyrp6rqdnpwmyedjy9s"
                (sample_utxo 1200) (serving [])) as Hfit.
  pose proof (threshold_is_inclusive (constants := assignment_constants)
                (lib := sample_lib) "key"
                "tb1qt5j5snh3nt5d6udhekupyrp6rqdnpwmyedjy9s"
                (sample_utxo 1199) (serving [])) as Hshort.
  split.
  - destruct (proj1 Hfit eq_refl) as [Hsel Hbuild].
    split; [exact Hsel | exact (Hbuild eq_refl eq_refl)].
  - destruct (proj2 Hshort eq_refl) as [Hsel Hbuild].
    split; [exact Hsel | exact (Hbuild eq_refl)].
Defined.
